(** * telegram-invoice-bot: the extraction / normalisation / persistence core

    A shallow embedding of [bot.py].  Python values are an inductive type,
    dictionaries are finite maps over string keys, exceptions are a result
    monad with [try_except], and the handlers thread an explicit world
    (user flags, record store, reply log).

    Text is modelled as Rocq strings read as 7-bit ASCII (a non-ASCII literal
    such as the menu caption is just its bytes): the Unicode-aware corners of
    [str.strip], of the regular expression class [\d] and of [float()] are
    modelled on their ASCII range.  Floats are IEEE binary64 values written in
    the Standard Library's [spec_float], with correctly rounded decimal
    conversion as CPython performs it. *)

From stdpp Require Import gmap strings list.
From Stdlib Require Import ZArith Ascii String SpecFloat DecimalString.

Local Open Scope string_scope.
Local Open Scope Z_scope.

(** ** Exceptions and the result monad *)

(** A raised exception: its class name and [e.args] rendered with [str]. *)
Record exn := Exn { exn_class : string; exn_args : list string }.

Definition ValueError (msg : string) : exn := Exn "ValueError" [msg].
Definition TypeError (msg : string) : exn := Exn "TypeError" [msg].

Inductive result (A : Type) : Type :=
| Ok (a : A)
| Raise (e : exn).
Arguments Ok {A} a.
Arguments Raise {A} e.

#[global] Instance result_ret : MRet result := fun A a => Ok a.
#[global] Instance result_bind : MBind result := fun A B f m =>
  match m with
  | Ok a => f a
  | Raise e => Raise e
  end.

(** [try: body  except Exception: handler]. *)
Definition try_except {A} (body : result A) (handler : exn -> result A) : result A :=
  match body with
  | Ok a => Ok a
  | Raise e => handler e
  end.

(** ** Python string primitives *)

Module PyStr.

Definition code (c : ascii) : N := N_of_ascii c.

(** Characters removed by [str.strip()] (and accepted by [str.isspace]):
    TAB..CR, FS..US, and the space. *)
Definition isspace (c : ascii) : bool :=
  (((9 <=? code c) && (code c <=? 13)) || ((28 <=? code c) && (code c <=? 32)))%N.

Definition isdigit (c : ascii) : bool :=
  ((48 <=? code c) && (code c <=? 57))%N.

Definition digit_val (c : ascii) : Z := Z.of_N (code c) - 48.

Definition digit_char (d : Z) : ascii := ascii_of_N (Z.to_N (48 + d)).

Fixpoint lstrip (s : string) : string :=
  match s with
  | EmptyString => EmptyString
  | String c s' => if isspace c then lstrip s' else s
  end.

Fixpoint rstrip (s : string) : string :=
  match s with
  | EmptyString => EmptyString
  | String c s' =>
      match rstrip s' with
      | EmptyString => if isspace c then EmptyString else String c EmptyString
      | r => String c r
      end
  end.

(** [s.strip()] *)
Definition strip (s : string) : string := rstrip (lstrip s).

(** [s.startswith(p)] *)
Definition startswith (p s : string) : bool := String.prefix p s.

(** [sub in s] *)
Fixpoint contains (sub s : string) : bool :=
  String.prefix sub s ||
  match s with
  | EmptyString => false
  | String _ s' => contains sub s'
  end.

(** [s.replace(old, new)] for a non-empty [old]: left to right, matches do
    not overlap.  [skip] counts the characters of a match still to drop. *)
Fixpoint replace_from (old new : string) (skip : nat) (s : string) : string :=
  match s with
  | EmptyString => EmptyString
  | String c s' =>
      match skip with
      | S k => replace_from old new k s'
      | O =>
          if String.prefix old s
          then new ++ replace_from old new (String.length old - 1) s'
          else String c (replace_from old new O s')
      end
  end.

(** With an empty [old] Python puts [new] around every character. *)
Fixpoint intersperse (new s : string) : string :=
  match s with
  | EmptyString => new
  | String c s' => new ++ String c (intersperse new s')
  end.

Definition replace (old new s : string) : string :=
  match old with
  | EmptyString => intersperse new s
  | _ => replace_from old new O s
  end.

(** Truth value of a string: non-empty. *)
Definition nonempty (s : string) : bool :=
  match s with EmptyString => false | _ => true end.

Definition eqb (a b : string) : bool := String.eqb a b.

(** [sep.join(parts)] *)
Fixpoint join (sep : string) (parts : list string) : string :=
  match parts with
  | [] => ""
  | [p] => p
  | p :: rest => p ++ sep ++ join sep rest
  end.

(** Decimal rendering of an integer, as [str(int)] writes it. *)
Definition of_Z (n : Z) : string := NilZero.string_of_int (Z.to_int n).

End PyStr.

(** ** Python floats: IEEE binary64, [float(str)] and [repr(float)] *)

Module PyFloat.

Definition prec : Z := 53.
Definition emax : Z := 1024.

Definition float_eqb (a b : spec_float) : bool :=
  match a, b with
  | S754_zero s, S754_zero t => Bool.eqb s t
  | S754_infinity s, S754_infinity t => Bool.eqb s t
  | S754_nan, S754_nan => true
  | S754_finite s m e, S754_finite t n f => Bool.eqb s t && Pos.eqb m n && Z.eqb e f
  | _, _ => false
  end.

(** The binary64 nearest (ties to even) to [m * 10^e]; this is the value
    CPython's [strtod] yields, overflow giving an infinity. *)
Definition of_decimal (neg : bool) (m : Z) (e : Z) : spec_float :=
  match m with
  | Zpos p =>
      match e with
      | Zneg k => SFdiv prec emax (S754_finite neg p 0) (S754_finite false (Pos.pow 10 k) 0)
      | _ => binary_round prec emax neg (p * Z.to_pos (10 ^ e)) 0
      end
  | _ => S754_zero neg
  end.

(** [Py_ISSPACE]: the C locale's white space. *)
Definition c_isspace (c : ascii) : bool :=
  (((9 <=? PyStr.code c) && (PyStr.code c <=? 13)) || (PyStr.code c =? 32))%N.

Fixpoint c_lstrip (s : string) : string :=
  match s with
  | EmptyString => EmptyString
  | String c s' => if c_isspace c then c_lstrip s' else s
  end.

Fixpoint c_rstrip (s : string) : string :=
  match s with
  | EmptyString => EmptyString
  | String c s' =>
      match c_rstrip s' with
      | EmptyString => if c_isspace c then EmptyString else String c EmptyString
      | r => String c r
      end
  end.

Definition is_underscore (c : ascii) : bool := (PyStr.code c =? 95)%N.

(** PEP 515: an underscore may only stand between two digits; the digits
    are then parsed without them. *)
Fixpoint drop_underscores (prev : ascii) (s : string) : option string :=
  match s with
  | EmptyString => if is_underscore prev then None else Some EmptyString
  | String c s' =>
      if is_underscore c then
        if PyStr.isdigit prev then drop_underscores c s' else None
      else if is_underscore prev && negb (PyStr.isdigit c) then None
      else String c <$> drop_underscores c s'
  end.

Fixpoint span_digits (s : string) : string * string :=
  match s with
  | EmptyString => (EmptyString, EmptyString)
  | String c s' =>
      if PyStr.isdigit c
      then let '(d, r) := span_digits s' in (String c d, r)
      else (EmptyString, s)
  end.

Fixpoint digits_val (acc : Z) (s : string) : Z :=
  match s with
  | EmptyString => acc
  | String c s' => digits_val (10 * acc + PyStr.digit_val c) s'
  end.

Definition is_char (n : N) (c : ascii) : bool := (PyStr.code c =? n)%N.

(** An optional sign; [true] is minus. *)
Definition take_sign (s : string) : bool * string :=
  match s with
  | String c s' =>
      if is_char 45 c then (true, s')
      else if is_char 43 c then (false, s')
      else (false, s)
  | EmptyString => (false, s)
  end.

(** The exponent part [e[+-]digits]; when malformed nothing is consumed. *)
Definition take_exponent (s : string) : Z * string :=
  match s with
  | String c s' =>
      if is_char 101 c || is_char 69 c then
        let '(neg, s1) := take_sign s' in
        let '(ds, rest) := span_digits s1 in
        match ds with
        | EmptyString => (0, s)
        | _ => ((if neg then - digits_val 0 ds else digits_val 0 ds), rest)
        end
      else (0, s)
  | EmptyString => (0, s)
  end.

(** The decimal grammar of [strtod]: sign, digits, optional fraction,
    optional exponent; at least one digit.  Returns the value and the
    unparsed rest. *)
Definition parse_decimal (s : string) : option (spec_float * string) :=
  let '(neg, s1) := take_sign s in
  let '(ip, s2) := span_digits s1 in
  let '(fp, s3) :=
    match s2 with
    | String c s' => if is_char 46 c then span_digits s' else (EmptyString, s2)
    | EmptyString => (EmptyString, s2)
    end in
  match ip ++ fp with
  | EmptyString => None
  | ds =>
      let '(ex, rest) := take_exponent s3 in
      Some (of_decimal neg (digits_val 0 ds) (ex - Z.of_nat (String.length fp)), rest)
  end.

Definition lower (c : ascii) : ascii :=
  if ((65 <=? PyStr.code c) && (PyStr.code c <=? 90))%N
  then ascii_of_N (PyStr.code c + 32) else c.

(** Case-insensitive prefix test against a lower-case word; the rest of
    [s] on success. *)
Fixpoint imatch (word s : string) : option string :=
  match word with
  | EmptyString => Some s
  | String w word' =>
      match s with
      | String c s' => if Ascii.eqb (lower c) w then imatch word' s' else None
      | EmptyString => None
      end
  end.

(** [_Py_parse_inf_or_nan] *)
Definition parse_inf_or_nan (s : string) : option (spec_float * string) :=
  let '(neg, s1) := take_sign s in
  match imatch "inf" s1 with
  | Some r =>
      Some (S754_infinity neg, match imatch "inity" r with Some r' => r' | None => r end)
  | None =>
      match imatch "nan" s1 with
      | Some r => Some (S754_nan, r)
      | None => None
      end
  end.

Definition strtod (s : string) : option (spec_float * string) :=
  match parse_decimal s with
  | Some r => Some r
  | None => parse_inf_or_nan s
  end.

Definition could_not_convert (s : string) : exn :=
  ValueError ("could not convert string to float: " ++ s).

(** [float(s)] for a string [s]. *)
Definition py_float (s : string) : result spec_float :=
  let t := c_rstrip (c_lstrip s) in
  let body := if PyStr.contains "_" t then drop_underscores "000"%char t else Some t in
  match body with
  | None => Raise (could_not_convert s)
  | Some u =>
      match strtod u with
      | Some (f, EmptyString) => Ok f
      | _ => Raise (could_not_convert s)
      end
  end.

(** *** [repr]: the shortest decimal string that reads back as the float *)

(** [num/den < 10^k] *)
Definition below_pow10 (num den k : Z) : bool :=
  match k with
  | Zneg p => (num * 10 ^ Zpos p <? den)%Z
  | _ => (num <? den * 10 ^ k)%Z
  end.

(** The decimal point position, the least [k] with [num/den < 10^k],
    found by scanning upwards from [k]. *)
Fixpoint dec_point (fuel : nat) (k num den : Z) : Z :=
  match fuel with
  | O => k
  | S fuel' => if below_pow10 num den k then k else dec_point fuel' (k + 1) num den
  end.

Fixpoint rstrip_zeros (s : string) : string :=
  match s with
  | EmptyString => EmptyString
  | String c s' =>
      match rstrip_zeros s' with
      | EmptyString => if is_char 48 c then EmptyString else String c EmptyString
      | r => String c r
      end
  end.

(** Search for the shortest digit string, from [n] significant digits up
    to 17 (which always suffice for binary64).  Yields the digits and the
    position of the decimal point. *)
Fixpoint shortest (fuel : nat) (n : Z) (f : spec_float) (num den k : Z) : string * Z :=
  let '(sn, sd) :=
    match n - k with
    | Zneg p => (num, den * 10 ^ Zpos p)
    | d => (num * 10 ^ d, den)
    end in
  let lo := sn / sd in
  let hi := lo + 1 in
  let r := sn mod sd in
  let near := match 2 * r ?= sd with
              | Lt => lo
              | Gt => hi
              | Eq => if Z.even lo then lo else hi
              end in
  let ok_lo := float_eqb (of_decimal false lo (k - n)) f in
  let ok_hi := float_eqb (of_decimal false hi (k - n)) f in
  let emit (d : Z) :=
    let ds := PyStr.of_Z d in
    (rstrip_zeros ds, k + (Z.of_nat (String.length ds) - n)) in
  match fuel with
  | O => emit near
  | S fuel' =>
      if ok_lo && ok_hi then emit near
      else if ok_lo then emit lo
      else if ok_hi then emit hi
      else shortest fuel' (n + 1) f num den k
  end.

Fixpoint zeros (n : nat) : string :=
  match n with O => EmptyString | S n' => String "0" (zeros n') end.

(** Layout of [repr]: scientific notation when the decimal point lies
    outside [-4 < decpt <= 16], plain notation (with [.0] for integral
    values) otherwise. *)
Definition layout (ds : string) (decpt : Z) : string :=
  let n := Z.of_nat (String.length ds) in
  if ((decpt <=? -4) || (16 <? decpt))%Z then
    let ex := decpt - 1 in
    let mant := match ds with
                | String c EmptyString => ds
                | String c rest => String c ("." ++ rest)
                | EmptyString => ds
                end in
    let exs := PyStr.of_Z (Z.abs ex) in
    mant ++ "e" ++ (if (ex <? 0)%Z then "-" else "+")
         ++ (if (Z.abs ex <? 10)%Z then "0" else "") ++ exs
  else if (decpt <=? 0)%Z then "0." ++ zeros (Z.to_nat (- decpt)) ++ ds
  else if (n <=? decpt)%Z then ds ++ zeros (Z.to_nat (decpt - n)) ++ ".0"
  else substring 0 (Z.to_nat decpt) ds ++ "."
       ++ substring (Z.to_nat decpt) (Z.to_nat (n - decpt)) ds.

(** [repr(f)], which is also [str(f)]. *)
Definition float_repr (f : spec_float) : string :=
  match f with
  | S754_nan => "nan"
  | S754_infinity s => if s then "-inf" else "inf"
  | S754_zero s => if s then "-0.0" else "0.0"
  | S754_finite s m e =>
      let '(num, den) :=
        match e with
        | Zneg p => (Zpos m, 2 ^ Zpos p)
        | _ => (Zpos m * 2 ^ e, 1)
        end in
      (* a lower estimate from the binary logarithms, at most 3 too small *)
      let k0 := (Z.log2 num - Z.log2 den - 1) * 1233 / 4096 - 1 in
      let k := dec_point 6 k0 num den in
      let '(ds, decpt) := shortest 16 1 (S754_finite false m e) num den k in
      (if s then "-" else "") ++ layout ds decpt
  end.

End PyFloat.

(** ** Dates: [datetime.strptime] and [strftime] for the two formats used *)

Module PyDate.

Record date := Date { year : Z; month : Z; day : Z }.

Definition is_leap (y : Z) : bool :=
  (y mod 4 =? 0) && (negb (y mod 100 =? 0) || (y mod 400 =? 0)).

Definition days_in_month (y m : Z) : Z :=
  if m =? 2 then (if is_leap y then 29 else 28)
  else if (m =? 4) || (m =? 6) || (m =? 9) || (m =? 11) then 30
  else 31.

Definition valid_date (y m d : Z) : bool :=
  (1 <=? y) && (y <=? 9999) && (1 <=? m) && (m <=? 12)
  && (1 <=? d) && (d <=? days_in_month y m).

(** The constructor [datetime.date(y, m, d)], which rejects impossible
    dates. *)
Definition make_date (y m d : Z) : result date :=
  if valid_date y m d then Ok (Date y m d)
  else Raise (ValueError "day is out of range for month").

(** A backtracking matcher: the ways to match a prefix, in the order the
    regular expression engine tries them, each with the unmatched rest. *)
Definition matcher (A : Type) : Type := string -> list (A * string).

Definition one_digit (lo hi : Z) : matcher Z := fun s =>
  match s with
  | String a r =>
      if PyStr.isdigit a && (lo <=? PyStr.digit_val a) && (PyStr.digit_val a <=? hi)
      then [(PyStr.digit_val a, r)] else []
  | EmptyString => []
  end.

Definition two_digits (lo1 hi1 lo2 hi2 : Z) : matcher Z := fun s =>
  match s with
  | String a (String b r) =>
      if PyStr.isdigit a && (lo1 <=? PyStr.digit_val a) && (PyStr.digit_val a <=? hi1)
         && PyStr.isdigit b && (lo2 <=? PyStr.digit_val b) && (PyStr.digit_val b <=? hi2)
      then [(10 * PyStr.digit_val a + PyStr.digit_val b, r)] else []
  | _ => []
  end.

(** A space followed by a non-zero digit. *)
Definition space_digit : matcher Z := fun s =>
  match s with
  | String a r => if Ascii.eqb a " " then one_digit 1 9 r else []
  | EmptyString => []
  end.

Definition alt {A} (ms : list (matcher A)) : matcher A := fun s =>
  List.concat (map (fun m => m s) ms).

Definition lit (c : ascii) : matcher unit := fun s =>
  match s with
  | String a r => if Ascii.eqb a c then [(tt, r)] else []
  | EmptyString => []
  end.

Definition seq {A B} (m : matcher A) (k : A -> matcher B) : matcher B := fun s =>
  List.concat (map (fun '(a, r) => k a r) (m s)).

Definition yield {A} (a : A) : matcher A := fun s => [(a, s)].

(** [%d]: [3[0-1]|[1-2]\d|0[1-9]|[1-9]| [1-9]] *)
Definition directive_d : matcher Z :=
  alt [two_digits 3 3 0 1; two_digits 1 2 0 9; two_digits 0 0 1 9;
       one_digit 1 9; space_digit].

(** [%m]: [1[0-2]|0[1-9]|[1-9]] *)
Definition directive_m : matcher Z :=
  alt [two_digits 1 1 0 2; two_digits 0 0 1 9; one_digit 1 9].

(** [%Y]: [\d\d\d\d] *)
Definition directive_Y : matcher Z :=
  seq (two_digits 0 9 0 9) (fun hi =>
  seq (two_digits 0 9 0 9) (fun lo => yield (100 * hi + lo))).

Inductive format := DMY_slash | YMD_dash.

(** The compiled pattern of a format; the match yields year, month, day. *)
Definition pattern (f : format) : matcher (Z * Z * Z) :=
  match f with
  | DMY_slash =>
      seq directive_d (fun d => seq (lit "/") (fun _ =>
      seq directive_m (fun m => seq (lit "/") (fun _ =>
      seq directive_Y (fun y => yield (y, m, d))))))
  | YMD_dash =>
      seq directive_Y (fun y => seq (lit "-") (fun _ =>
      seq directive_m (fun m => seq (lit "-") (fun _ =>
      seq directive_d (fun d => yield (y, m, d))))))
  end.

(** [datetime.strptime(s, f)]: the pattern is matched at the start of [s],
    the first match in backtracking order is taken, and it has to cover
    the whole of [s]. *)
Definition strptime (s : string) (f : format) : result date :=
  match pattern f s with
  | [] => Raise (ValueError "time data does not match format")
  | ((y, m, d), EmptyString) :: _ => make_date y m d
  | (_, String _ _) :: _ => Raise (ValueError "unconverted data remains")
  end.

Definition pad2 (n : Z) (rest : string) : string :=
  String (PyStr.digit_char (n / 10 mod 10)) (String (PyStr.digit_char (n mod 10)) rest).

Definition pad4 (n : Z) (rest : string) : string :=
  pad2 (n / 100) (pad2 n rest).

(** [dt.strftime("%Y-%m-%d")], the year written with four digits as the
    library documents it.  (The C library does the formatting: glibc under
    CPython before 3.13 leaves a year below 1000 unpadded, and such a text
    is not read back by [%Y]; the model follows the documented form.) *)
Definition strftime (d : date) : string :=
  pad4 (year d) (String "-" (pad2 (month d) (String "-" (pad2 (day d) EmptyString)))).

End PyDate.

(** ** Python values and the world of the bot *)

(** What [json.loads] can return and what a record may hold. *)
#[warnings="-register-all"]
Inductive value :=
| VNone
| VBool (b : bool)
| VInt (n : Z)
| VFloat (f : spec_float)
| VStr (s : string)
| VList (l : list value)
| VDict (d : gmap string value).

(** A record, as the program holds it: a [dict] with string keys. *)
Abbreviation dict := (gmap string value).

(** Python's truth value of an object. *)
Definition truthy (v : value) : bool :=
  match v with
  | VNone => false
  | VBool b => b
  | VInt n => negb (n =? 0)
  | VFloat (S754_zero _) => false
  | VFloat _ => true
  | VStr s => PyStr.nonempty s
  | VList l => match l with [] => false | _ => true end
  | VDict d => negb (bool_decide (d = ∅))
  end.

Definition is_none (v : value) : bool :=
  match v with VNone => true | _ => false end.

(** [sys.get_int_max_str_digits()], the default of CPython. *)
Definition int_max_str_digits : nat := 4300.

(** [str(v)].  A list or a dict is rendered by its brackets only, the
    elements elided: the one thing the program does with the text of a
    non-scalar is to hand it to [float], which stops at the bracket. *)
Definition py_str (v : value) : result string :=
  match v with
  | VNone => Ok "None"
  | VBool b => Ok (if b then "True" else "False")
  | VInt n =>
      let s := PyStr.of_Z (Z.abs n) in
      if (int_max_str_digits <? String.length s)%nat
      then Raise (ValueError "Exceeds the limit (4300 digits) for integer string conversion")
      else Ok (PyStr.of_Z n)
  | VFloat f => Ok (PyFloat.float_repr f)
  | VStr s => Ok s
  | VList _ => Ok "[...]"
  | VDict _ => Ok "{...}"
  end.

(** Mutable dictionaries live in a heap of objects and are passed by
    reference. *)
Definition loc := nat.

(** What the bot does to the outside, in the order it does it. *)
Inductive event :=
| EvUserData (key : string) (v : value)     (* context.user_data[key] = v *)
| EvSelect (invoice_number : string)        (* table("invoices").select("*").eq(...) *)
| EvInsert (row : dict)                     (* table("invoices").insert(row) *)
| EvReplyText (text : string)               (* reply_text(text) *)
| EvReplyError (label : string) (e : exn)   (* reply_text(f"{label}{e}") *)
| EvReplyRecord (record : dict)             (* the reply listing every field *)
| EvReplyDocument (document filename : value)
| EvDownload (path : string)
| EvRemove (path : string)
| EvUpload (name : string)
| EvCompletion (prompt : string).

Record world := World {
  objects : gmap loc dict;      (* the dict objects *)
  invoices : list dict;         (* rows of the table "invoices" *)
  user_data : dict;             (* context.user_data of the user *)
  trace : list event            (* newest last *)
}.

(** The dict object behind a reference. *)
Definition deref (w : world) (l : loc) : dict := default ∅ (objects w !! l).

(** Statements: a state and exception monad over the world.  An exception
    keeps the effects made before it was raised. *)
Definition M (A : Type) : Type := world -> result A * world.

#[global] Instance M_ret : MRet M := fun A a w => (Ok a, w).
#[global] Instance M_bind : MBind M := fun A B f m w =>
  match m w with
  | (Ok a, w') => f a w'
  | (Raise e, w') => (Raise e, w')
  end.

Definition raise {A} (e : exn) : M A := fun w => (Raise e, w).

(** Lifts a computation that only returns or raises. *)
Definition lift {A} (r : result A) : M A := fun w => (r, w).

(** [try: body  except Exception as e: handler(e)] *)
Definition try_catch {A} (body : M A) (handler : exn -> M A) : M A := fun w =>
  match body w with
  | (Ok a, w') => (Ok a, w')
  | (Raise e, w') => handler e w'
  end.

Definition emit (ev : event) : M unit := fun w =>
  (Ok tt, World (objects w) (invoices w) (user_data w) (trace w ++ [ev])%list).

(** [data[key] = v] on the dict object [data]. *)
Definition setitem (data : loc) (key : string) (v : value) : M unit := fun w =>
  (Ok tt, World (<[data := <[key := v]> (deref w data)]> (objects w))
                (invoices w) (user_data w) (trace w)).

(** [list(data.items())] *)
Definition items (data : loc) : M (list (string * value)) := fun w =>
  (Ok (map_to_list (deref w data)), w).

(** A fresh dict object holding [d]. *)
Definition new_dict (d : dict) : M loc := fun w =>
  let l := fresh (dom (objects w)) in
  (Ok l, World (<[l := d]> (objects w)) (invoices w) (user_data w) (trace w)).

(** ** [clean_invoice_data] *)

Definition is_date_key (key : string) : bool :=
  PyStr.contains "date" key || PyStr.contains "issued" key || PyStr.contains "period" key.

Definition is_amount_key (key : string) : bool := PyStr.startswith "amount_" key.

(** [float(str(value).replace(",", ".").replace("EUR", "").replace(" ", ""))] *)
Definition amount_float (v : value) : result spec_float :=
  s ← py_str v;
  PyFloat.py_float (PyStr.replace " " "" (PyStr.replace "EUR" "" (PyStr.replace "," "." s))).

(** [float(value.replace("%", "").replace(",", ".").strip())] *)
Definition percent_float (s : string) : result spec_float :=
  PyFloat.py_float (PyStr.strip (PyStr.replace "," "." (PyStr.replace "%" "" s))).

(** The [strptime] call of the date branch. *)
Definition parse_date (s : string) : result PyDate.date :=
  if PyStr.contains "/" s
  then PyDate.strptime (PyStr.strip s) PyDate.DMY_slash
  else PyDate.strptime (PyStr.strip s) PyDate.YMD_dash.

(** The body of the [for key, value in data.items()] loop. *)
Definition clean_step (data : loc) (key : string) (value : value) : M unit :=
  match value with
  | VStr s =>
      (if PyStr.eqb (PyStr.strip s) "" then setitem data key VNone else mret tt);;
      (if PyStr.nonempty s && is_date_key key then
         try_catch
           (dt ← lift (parse_date s);
            setitem data key (VStr (PyDate.strftime dt)))
           (fun _ => setitem data key VNone)
       else mret tt);;
      (if PyStr.eqb key "vat_percent" && PyStr.nonempty s then
         try_catch
           (f ← lift (percent_float s);
            setitem data key (VFloat f))
           (fun _ => setitem data key VNone)
       else mret tt)
  | _ => mret tt
  end;;
  (if is_amount_key key && negb (is_none value) then
     try_catch
       (f ← lift (amount_float value);
        setitem data key (VFloat f))
       (fun _ => setitem data key VNone)
   else mret tt).

Fixpoint clean_loop (data : loc) (todo : list (string * value)) : M unit :=
  match todo with
  | [] => mret tt
  | (key, value) :: rest => clean_step data key value;; clean_loop data rest
  end.

(** [clean_invoice_data(data)]: rewrites the dict it is given and returns
    that same dict. *)
Definition clean_invoice_data (data : loc) : M loc :=
  todo ← items data;
  clean_loop data todo;;
  mret data.

(** ** [json.loads] *)

Module Json.

Definition JSONDecodeError (msg : string) : exn := Exn "JSONDecodeError" [msg].

Definition chr_is (c : ascii) (a : ascii) : bool := Ascii.eqb a c.

(** The double quote. *)
Definition dq : ascii := "034"%char.

(** The white space of JSON: space, TAB, LF, CR. *)
Definition is_ws (c : ascii) : bool :=
  chr_is " " c || chr_is "009" c || chr_is "010" c || chr_is "013" c.

Fixpoint skip_ws (s : string) : string :=
  match s with
  | String c r => if is_ws c then skip_ws r else s
  | EmptyString => s
  end.

Definition hex_val (c : ascii) : option N :=
  let n := PyStr.code c in
  (if (48 <=? n) && (n <=? 57) then Some (n - 48)
   else if (65 <=? n) && (n <=? 70) then Some (n - 55)
   else if (97 <=? n) && (n <=? 102) then Some (n - 87)
   else None)%N.

(** The four hexadecimal digits of a [\uXXXX] escape. *)
Definition hex4 (a b c d : ascii) : option N :=
  match hex_val a, hex_val b, hex_val c, hex_val d with
  | Some x, Some y, Some z, Some t => Some (((x * 16 + y) * 16 + z) * 16 + t)%N
  | _, _, _, _ => None
  end.

Definition byte (n : N) : ascii := ascii_of_N n.

(** A code point as the bytes of its UTF-8 form. *)
Definition utf8 (cp : N) (rest : string) : string :=
  (if cp <? 128 then String (byte cp) rest
   else if cp <? 2048 then
     String (byte (192 + cp / 64)) (String (byte (128 + cp mod 64)) rest)
   else if cp <? 65536 then
     String (byte (224 + cp / 4096))
       (String (byte (128 + cp / 64 mod 64)) (String (byte (128 + cp mod 64)) rest))
   else
     String (byte (240 + cp / 262144))
       (String (byte (128 + cp / 4096 mod 64))
          (String (byte (128 + cp / 64 mod 64)) (String (byte (128 + cp mod 64)) rest))))%N.

Definition is_high_surrogate (cp : N) : bool := ((55296 <=? cp) && (cp <=? 56319))%N.
Definition is_low_surrogate (cp : N) : bool := ((56320 <=? cp) && (cp <=? 57343))%N.

(** A high surrogate and the low surrogate escaped after it are one
    character. *)
Definition join_surrogates (hi lo : N) : N :=
  (65536 + (hi - 55296) * 1024 + (lo - 56320))%N.

(** [scanstring], after the opening quote: the decoded text and what
    follows the closing quote. *)
Fixpoint scanstring (s : string) : result (string * string) :=
  match s with
  | EmptyString => Raise (JSONDecodeError "Unterminated string starting at")
  | String c r =>
      if chr_is dq c then Ok (EmptyString, r)
      else if (PyStr.code c <? 32)%N then Raise (JSONDecodeError "Invalid control character at")
      else if chr_is "\" c then
        match r with
        | EmptyString => Raise (JSONDecodeError "Unterminated string starting at")
        | String e r' =>
            let simple (x : ascii) :=
              '(t, rest) ← scanstring r'; Ok (String x t, rest) in
            if chr_is dq e then simple dq
            else if chr_is "\" e then simple "\"%char
            else if chr_is "/" e then simple "/"%char
            else if chr_is "b" e then simple "008"%char
            else if chr_is "f" e then simple "012"%char
            else if chr_is "n" e then simple "010"%char
            else if chr_is "r" e then simple "013"%char
            else if chr_is "t" e then simple "009"%char
            else if chr_is "u" e then
              match r' with
              | String h1 (String h2 (String h3 (String h4 r2))) =>
                  match hex4 h1 h2 h3 h4 with
                  | None => Raise (JSONDecodeError "Invalid \uXXXX escape")
                  | Some cp =>
                      let single := '(t, rest) ← scanstring r2; Ok (utf8 cp t, rest) in
                      match r2 with
                      | String b1 (String b2 (String l1 (String l2 (String l3 (String l4 r3))))) =>
                          match hex4 l1 l2 l3 l4 with
                          | Some lo =>
                              if is_high_surrogate cp && chr_is "\" b1 && chr_is "u" b2
                                 && is_low_surrogate lo
                              then '(t, rest) ← scanstring r3;
                                   Ok (utf8 (join_surrogates cp lo) t, rest)
                              else single
                          | None => single
                          end
                      | _ => single
                      end
                  end
              | _ => Raise (JSONDecodeError "Invalid \uXXXX escape")
              end
            else Raise (JSONDecodeError "Invalid \escape")
        end
      else '(t, rest) ← scanstring r; Ok (String c t, rest)
  end.

(** [NUMBER_RE]: an optional minus and an integer without leading zeros,
    an optional fraction (a dot and digits), an optional exponent.  The
    three groups and the rest; [None] when there is no number here. *)
Definition match_number (s : string) : option (string * string * string * string) :=
  let '(sign, s1) :=
    match s with
    | String c r => if chr_is "-" c then ("-", r) else ("", s)
    | EmptyString => ("", s)
    end in
  match s1 with
  | String c r =>
      if PyStr.isdigit c then
        let '(ds, s2) :=
          if chr_is "0" c then ("0", r)
          else let '(d, r') := PyFloat.span_digits r in (String c d, r') in
        let '(frac, s3) :=
          match s2 with
          | String p r2 =>
              if chr_is "." p then
                match PyFloat.span_digits r2 with
                | (EmptyString, _) => ("", s2)
                | (fd, r3) => (String p fd, r3)
                end
              else ("", s2)
          | EmptyString => ("", s2)
          end in
        let '(ex, s4) :=
          match s3 with
          | String e r3 =>
              if chr_is "e" e || chr_is "E" e then
                let '(sg, r4) :=
                  match r3 with
                  | String g r' =>
                      if chr_is "-" g || chr_is "+" g then (String g "", r') else ("", r3)
                  | EmptyString => ("", r3)
                  end in
                match PyFloat.span_digits r4 with
                | (EmptyString, _) => ("", s3)
                | (ed, r5) => (String e (sg ++ ed), r5)
                end
              else ("", s3)
          | EmptyString => ("", s3)
          end in
        Some (sign ++ ds, frac, ex, s4)
      else None
  | EmptyString => None
  end.

(** [int(text)] on a matched integer, with CPython's limit on the number
    of digits. *)
Definition parse_int (text : string) : result value :=
  let '(neg, ds) := PyFloat.take_sign text in
  if (int_max_str_digits <? String.length ds)%nat
  then Raise (ValueError "Exceeds the limit (4300 digits) for integer string conversion")
  else Ok (VInt (if neg then - PyFloat.digits_val 0 ds else PyFloat.digits_val 0 ds)).

Definition expecting_value : exn := JSONDecodeError "Expecting value".

(** After a value inside an object or an array: the next significant
    character and what follows it. *)
Definition next_token (s : string) : option (ascii * string) :=
  match skip_ws s with
  | String c r => Some (c, r)
  | EmptyString => None
  end.

(** [scan_once] with [JSONObject] and [JSONArray].  The fuel bounds the
    nesting; every call consumes input, so the length of the text is
    always enough. *)
Fixpoint scan_once (fuel : nat) (s : string) : result (value * string) :=
  match fuel with
  | O => Raise (Exn "RecursionError" ["maximum recursion depth exceeded"])
  | S fuel' =>
      match s with
      | EmptyString => Raise expecting_value
      | String c r =>
          if chr_is dq c then
            '(t, rest) ← scanstring r; Ok (VStr t, rest)
          else if chr_is "{" c then
            match skip_ws r with
            | String q r' =>
                if chr_is "}" q then Ok (VDict ∅, r')
                else if chr_is dq q then object_pairs fuel' ∅ r'
                else Raise (JSONDecodeError "Expecting property name enclosed in double quotes")
            | EmptyString =>
                Raise (JSONDecodeError "Expecting property name enclosed in double quotes")
            end
          else if chr_is "[" c then
            match skip_ws r with
            | String q r' =>
                if chr_is "]" q then Ok (VList [], r')
                else array_items fuel' [] (skip_ws r)
            | EmptyString => Raise expecting_value
            end
          else if String.prefix "null" s then Ok (VNone, substring 4 (String.length s) s)
          else if String.prefix "true" s then Ok (VBool true, substring 4 (String.length s) s)
          else if String.prefix "false" s then Ok (VBool false, substring 5 (String.length s) s)
          else
            match match_number s with
            | Some (integer, frac, ex, rest) =>
                match frac ++ ex with
                | EmptyString => v ← parse_int integer; Ok (v, rest)
                | _ => f ← PyFloat.py_float (integer ++ frac ++ ex); Ok (VFloat f, rest)
                end
            | None =>
                if String.prefix "NaN" s
                then Ok (VFloat S754_nan, substring 3 (String.length s) s)
                else if String.prefix "Infinity" s
                then Ok (VFloat (S754_infinity false), substring 8 (String.length s) s)
                else if String.prefix "-Infinity" s
                then Ok (VFloat (S754_infinity true), substring 9 (String.length s) s)
                else Raise expecting_value
            end
      end
  end

(** The pairs of an object, entered just after the opening quote of a
    key; a repeated key keeps its last value. *)
with object_pairs (fuel : nat) (acc : dict) (s : string) : result (value * string) :=
  match fuel with
  | O => Raise (Exn "RecursionError" ["maximum recursion depth exceeded"])
  | S fuel' =>
      '(key, s1) ← scanstring s;
      match skip_ws s1 with
      | String c s2 =>
          if chr_is ":" c then
            '(v, s3) ← scan_once fuel' (skip_ws s2);
            let acc' := <[key := v]> acc in
            match next_token s3 with
            | Some (d, s4) =>
                if chr_is "}" d then Ok (VDict acc', s4)
                else if chr_is "," d then
                  match skip_ws s4 with
                  | String q s5 =>
                      if chr_is dq q then object_pairs fuel' acc' s5
                      else Raise (JSONDecodeError
                                    "Expecting property name enclosed in double quotes")
                  | EmptyString =>
                      Raise (JSONDecodeError
                               "Expecting property name enclosed in double quotes")
                  end
                else Raise (JSONDecodeError "Expecting ',' delimiter")
            | None => Raise (JSONDecodeError "Expecting ',' delimiter")
            end
          else Raise (JSONDecodeError "Expecting ':' delimiter")
      | EmptyString => Raise (JSONDecodeError "Expecting ':' delimiter")
      end
  end

(** The elements of an array, entered at the first character of an
    element. *)
with array_items (fuel : nat) (acc : list value) (s : string) : result (value * string) :=
  match fuel with
  | O => Raise (Exn "RecursionError" ["maximum recursion depth exceeded"])
  | S fuel' =>
      '(v, s1) ← scan_once fuel' s;
      let acc' := (acc ++ [v])%list in
      match next_token s1 with
      | Some (d, s2) =>
          if chr_is "]" d then Ok (VList acc', s2)
          else if chr_is "," d then array_items fuel' acc' (skip_ws s2)
          else Raise (JSONDecodeError "Expecting ',' delimiter")
      | None => Raise (JSONDecodeError "Expecting ',' delimiter")
      end
  end.

(** [json.loads(s)]: one value, white space allowed around it. *)
Definition loads (s : string) : result value :=
  '(v, rest) ← scan_once (2 + String.length s) (skip_ws s);
  match skip_ws rest with
  | EmptyString => Ok v
  | _ => Raise (JSONDecodeError "Extra data")
  end.

End Json.

(** ** The collaborators of the bot *)

(** What the outside answers during one run of a handler. *)
Record env := Env {
  (** [pdfplumber.open(path)]: the result of [extract_text()] for each
      page, or the failure to open the file. *)
  pdf_pages : string -> result (list (result (option string)));
  (** [response.choices[0].message.content] of the chat completion. *)
  chat_completion : string -> result string;
  (** The storage bucket's [upload] of an object name. *)
  storage_upload : string -> result unit;
  uuid4 : string;
  (** A failure of the table insert other than the unique constraint. *)
  insert_failure : option exn;
  SUPABASE_URL : string;
  STORAGE_BUCKET : string
}.

Definition nl : string := String "010" EmptyString.

(** [page.extract_text() or ""] for each page, in order. *)
Fixpoint page_texts (pages : list (result (option string))) : result (list string) :=
  match pages with
  | [] => Ok []
  | page :: rest =>
      t ← page;
      ts ← page_texts rest;
      Ok (default EmptyString t :: ts)
  end.

(** The greedy search for [\{.*\}] with DOTALL: from the first opening brace
    to the last closing brace after it. *)
Fixpoint through_last_close (s : string) : option string :=
  match s with
  | EmptyString => None
  | String c r =>
      match through_last_close r with
      | Some t => Some (String c t)
      | None => if Ascii.eqb c "}" then Some (String c EmptyString) else None
      end
  end.

Fixpoint brace_search (content : string) : option string :=
  match content with
  | EmptyString => None
  | String c r =>
      if Ascii.eqb c "{" then String c <$> through_last_close r
      else brace_search r
  end.

(** The parsing half of [extract_invoice_data_with_llm]. *)
Definition parse_response (content : string) : result value :=
  try_except (Json.loads content) (fun _ =>
    match brace_search content with
    | Some m => Json.loads m
    | None => Raise (ValueError "LLM did not return valid JSON")
    end).

Definition duplicate_signature : string :=
  "duplicate key value violates unique constraint".

(** [hasattr(e, "args") and e.args and
     "duplicate key value violates unique constraint" in str(e.args[0])] *)
Definition is_duplicate (e : exn) : bool :=
  match exn_args e with
  | a :: _ => PyStr.contains duplicate_signature a
  | [] => false
  end.

(** A dict the handler holds by reference, or any other value. *)
Inductive object :=
| Ref (l : loc)
| Imm (v : value).

(** [d.get(key)] *)
Definition dict_get (d : dict) (key : string) : value := default VNone (d !! key).

(** [a or b] *)
Definition py_or (a b : value) : value := if truthy a then a else b.

Definition set_user_data (key : string) (v : value) : M unit := fun w =>
  (Ok tt, World (objects w) (invoices w) (<[key := v]> (user_data w))
                (trace w ++ [EvUserData key v])%list).

Definition get_user_data (key : string) : M value := fun w =>
  (Ok (dict_get (user_data w) key), w).

Definition read (data : loc) : M dict := fun w => (Ok (deref w data), w).

(** The rows of the table, and a row added at its end. *)
Definition table_rows : M (list dict) := fun w => (Ok (invoices w), w).

Definition table_append (row : dict) : M unit := fun w =>
  (Ok tt, World (objects w) (invoices w ++ [row])%list (user_data w) (trace w)).

(** Modelled from the spec: the record store, which is a hosted table and
    not part of the program.  Two rows conflict when both carry the same
    text as [invoice_number]; a null never conflicts. *)
Definition same_invoice_number (a b : dict) : bool :=
  match a !! "invoice_number", b !! "invoice_number" with
  | Some (VStr x), Some (VStr y) => String.eqb x y
  | _, _ => false
  end.

Definition unique_violation : exn :=
  Exn "APIError"
      ["duplicate key value violates unique constraint invoices_invoice_number_key"].

(** Modelled from the spec: [select("*").eq("invoice_number", n)], the rows
    whose [invoice_number] is the text [n], in table order. *)
Definition has_invoice_number (n : string) (row : dict) : bool :=
  match row !! "invoice_number" with
  | Some (VStr x) => String.eqb x n
  | _ => false
  end.

(** The fixed replies. *)
Definition already_exists : string := "Такой инвойс ест уже в базе.".
Definition not_found : string := "Инвойса с таким номером нет.".
Definition send_pdf : string := "отправь PDF.".
Definition write_failed : string := "Ошибка записи в базу: ".

Section Bot.

Variable E : env.

(** [pdf_to_text(file_path)] *)
Definition pdf_to_text (file_path : string) : result string :=
  pages ← pdf_pages E file_path;
  texts ← page_texts pages;
  Ok (PyStr.join nl texts).

Definition prompt (text : string) : string :=
  nl ++ "Ты — помощник-бухгалтер. Извлеки из текста инвойса структурированные данные для таблицы:"
  ++ nl ++ "invoice_number, invoice_type (invoice/credit_note), date_issued (YYYY-MM-DD), period_start (YYYY-MM-DD), period_end (YYYY-MM-DD),"
  ++ nl ++ "seller_name, seller_vat, provider_name, provider_vat, description, amount_net, amount_vat, amount_total, original_invoice, vat_percent."
  ++ nl ++ "Верни результат в формате JSON с этими ключами. Если данных нет — ставь null."
  ++ nl ++ "Текст инвойса:"
  ++ nl ++ text ++ nl.

(** [extract_invoice_data_with_llm(text)] *)
Definition extract_invoice_data_with_llm (text : string) : M value :=
  emit (EvCompletion (prompt text));;
  content ← lift (chat_completion E (prompt text));
  lift (parse_response content).

(** [upload_pdf_to_supabase(file_path, file_name)] *)
Definition upload_pdf_to_supabase (file_path file_name : string) : M (string * string) :=
  let unique_name := uuid4 E ++ "_" ++ file_name in
  emit (EvUpload unique_name);;
  lift (storage_upload E unique_name);;
  mret (SUPABASE_URL E ++ "/storage/v1/object/public/" ++ STORAGE_BUCKET E
          ++ "/" ++ unique_name, file_name).

(** Modelled from the spec: the store's insert under the unique constraint
    on [invoice_number]. *)
Definition store_insert (row : dict) : M unit :=
  emit (EvInsert row);;
  match insert_failure E with
  | Some e => raise e
  | None =>
      rows ← table_rows;
      if existsb (same_invoice_number row) rows
      then raise unique_violation
      else table_append row
  end.

(** Modelled from the spec: the store's equality lookup. *)
Definition store_select (invoice_number : string) : M (list dict) :=
  emit (EvSelect invoice_number);;
  rows ← table_rows;
  mret (List.filter (has_invoice_number invoice_number) rows).

(** [insert_invoice(data)] *)
Definition insert_invoice (data : loc) : M unit :=
  data ← clean_invoice_data data;
  row ← read data;
  store_insert row.

Definition menu_caption : string := "загрузить инвойс".

(** [handle_menu], for the text of the message. *)
Definition handle_menu (text : string) : M unit :=
  if String.eqb text menu_caption then
    emit (EvReplyText "Введи номер инвойса (например, ES-AEU-2025-407254):");;
    set_user_data "awaiting_invoice_number" (VBool true)
  else
    flag ← get_user_data "awaiting_invoice_number";
    if truthy flag then
      let invoice_number := PyStr.strip text in
      set_user_data "awaiting_invoice_number" (VBool false);;
      rows ← store_select invoice_number;
      match rows with
      | row :: _ =>
          let file_url := dict_get row "file_url" in
          let original_file_name :=
            py_or (dict_get row "original_file_name") (VStr (invoice_number ++ ".pdf")) in
          emit (EvReplyDocument file_url original_file_name)
      | [] => emit (EvReplyText not_found)
      end
    else emit (EvReplyText send_pdf).

(** The document of the message. *)
Record document := Document { mime_type : string; file_name : string }.

(** [invoice_data[key] = v]: only a dict takes the assignment. *)
Definition setitem_object (o : object) (key : string) (v : value) : M unit :=
  match o with
  | Ref l => setitem l key v
  | Imm _ => raise (TypeError "object does not support item assignment")
  end.

(** The value that [json.loads] returned, held by the handler. *)
Definition hold (v : value) : M object :=
  match v with
  | VDict d => l ← new_dict d; mret (Ref l)
  | _ => mret (Imm v)
  end.

(** Steps 3 and 4 of [handle_pdf]: the two storage fields are put on the
    record, then [insert_invoice] runs under the [try]. *)
Definition persist (invoice_data : object) (file_path file_url original_file_name : string)
  : M unit :=
  setitem_object invoice_data "file_url" (VStr file_url);;
  setitem_object invoice_data "original_file_name" (VStr original_file_name);;
  match invoice_data with
  | Imm _ => mret tt
  | Ref data =>
      ok ← try_catch (insert_invoice data;; mret true)
             (fun e =>
                (if is_duplicate e
                 then emit (EvReplyText already_exists)
                 else emit (EvReplyError write_failed e));;
                emit (EvRemove file_path);;
                mret false);
      if ok : bool then
        record ← read data;
        emit (EvReplyRecord record);;
        emit (EvRemove file_path)
      else mret tt
  end.

(** [handle_pdf], for the document of the message. *)
Definition handle_pdf (doc : document) : M unit :=
  if negb (String.eqb (mime_type doc) "application/pdf") then
    emit (EvReplyText "Это не PDF-файл.")
  else
    let file_path := "./" ++ file_name doc in
    emit (EvDownload file_path);;
    text ← lift (pdf_to_text file_path);
    extracted ← try_catch (v ← extract_invoice_data_with_llm text; mret (Some v))
                  (fun e =>
                     emit (EvReplyError "Ошибка LLM: " e);;
                     emit (EvRemove file_path);;
                     mret None);
    match extracted with
    | None => mret tt
    | Some v =>
        invoice_data ← hold v;
        '(file_url, original_file_name) ← upload_pdf_to_supabase file_path (file_name doc);
        persist invoice_data file_path file_url original_file_name
    end.

End Bot.

(** ** What the normaliser computes *)

(** The field names the prompt asks for, and the two that [handle_pdf]
    adds. *)
Definition field_names : list string :=
  ["invoice_number"; "invoice_type"; "date_issued"; "period_start"; "period_end";
   "seller_name"; "seller_vat"; "provider_name"; "provider_vat"; "description";
   "amount_net"; "amount_vat"; "amount_total"; "original_invoice"; "vat_percent";
   "file_url"; "original_file_name"].

(** The value a [try] leaves in the field: the computed one, or [None] from
    the [except] branch. *)
Definition or_none {A} (r : result A) (f : A -> value) : value :=
  match r with
  | Ok a => f a
  | Raise _ => VNone
  end.

(** The value that [data[key]] holds once [clean_step] has run for an entry
    [key: v]: the last of the assignments it performs. *)
Definition clean_value (key : string) (v : value) : value :=
  let kept :=
    match v with
    | VStr s =>
        let blank := if PyStr.eqb (PyStr.strip s) "" then VNone else v in
        let dated :=
          if PyStr.nonempty s && is_date_key key
          then or_none (parse_date s) (fun dt => VStr (PyDate.strftime dt))
          else blank in
        if PyStr.eqb key "vat_percent" && PyStr.nonempty s
        then or_none (percent_float s) VFloat
        else dated
    | _ => v
    end in
  if is_amount_key key && negb (is_none v)
  then or_none (amount_float v) VFloat
  else kept.

(** The record after the loop. *)
Definition clean_dict (d : dict) : dict := map_imap (fun k v => Some (clean_value k v)) d.

(** The world with the dict object [l] holding [d]. *)
Definition put (l : loc) (d : dict) (w : world) : world :=
  World (<[l := d]> (objects w)) (invoices w) (user_data w) (trace w).

(** Every character of [s] passes [p]. *)
Fixpoint all_chars (p : ascii -> bool) (s : string) : bool :=
  match s with
  | EmptyString => true
  | String c r => p c && all_chars p r
  end.

(** [float(str(f))] is [f] again with the amount branch's replacements in
    between: the guarantee CPython gives for [repr], as a check on one
    float. *)
Definition reads_back (f : spec_float) : bool :=
  match amount_float (VFloat f) with
  | Ok g => PyFloat.float_eqb g f
  | Raise _ => false
  end.


(** The characters of a canonical date. *)
Definition date_char (c : ascii) : bool := PyStr.isdigit c || Ascii.eqb c "-".

(** The binary64 values named in the examples: 19.0, 19.5 and 1234.56. *)
Definition float_19 : spec_float := S754_finite false 5348024557502464 (-48).
Definition float_19_5 : spec_float := S754_finite false 5488762045857792 (-48).
Definition float_1234_56 : spec_float := S754_finite false 5429652300748554 (-42).

(** A world holding one record, as dict object 0. *)
Definition world_of (d : dict) : world := World {[ 0%nat := d ]} [] ∅ [].

(** ** Worlds after a handler *)

(** The world with further events in its trace. *)
Definition logged (evs : list event) (w : world) : world :=
  World (objects w) (invoices w) (user_data w) (trace w ++ evs)%list.

(** The world with a row added to the table. *)
Definition with_row (row : dict) (w : world) : world :=
  World (objects w) (invoices w ++ [row])%list (user_data w) (trace w).

(** The world with a key of the user's data set. *)
Definition with_user_data (key : string) (v : value) (w : world) : world :=
  World (objects w) (invoices w) (<[key := v]> (user_data w)) (trace w).

(** The record with the two storage fields put on it, as [handle_pdf] does
    before it calls [insert_invoice]. *)
Definition attach (file_url original_file_name : string) (d : dict) : dict :=
  <["original_file_name" := VStr original_file_name]> (<["file_url" := VStr file_url]> d).

(** The reply to a lookup: the document of the first matching row, or the
    text that there is none. *)
Definition lookup_reply (invoice_number : string) (rows : list dict) : event :=
  match List.find (has_invoice_number invoice_number) rows with
  | Some row =>
      EvReplyDocument (dict_get row "file_url")
        (py_or (dict_get row "original_file_name") (VStr (invoice_number ++ ".pdf")))
  | None => EvReplyText not_found
  end.

(** A world in which the user has been asked for an invoice number and the
    table holds the given rows. *)
Definition waiting_world (rows : list dict) : world :=
  World ∅ rows {[ "awaiting_invoice_number" := VBool true ]} [].

(** The end-to-end scenario of the specification: the response of the
    model for the text of its example, and a world of collaborators that
    answers with it. *)
Definition scenario_response : string :=
  let q s := String Json.dq (s ++ String Json.dq EmptyString) in
  "{" ++ q "invoice_number" ++ ": " ++ q "ES-AEU-2025-407254" ++ ", "
      ++ q "date_issued" ++ ": " ++ q "31/12/2024" ++ ", "
      ++ q "amount_total" ++ ": " ++ q "1000,00 EUR" ++ "}".

Definition scenario_env : env :=
  Env (fun _ => Ok [Ok (Some "Invoice ES-AEU-2025-407254 dated 31/12/2024, total 1000,00 EUR")])
      (fun _ => Ok scenario_response) (fun _ => Ok tt)
      "0b5e" None "https://project.supabase.co" "invoices".

Definition scenario_row : dict :=
  <["invoice_number" := VStr "ES-AEU-2025-407254"]>
  (<["date_issued" := VStr "2024-12-31"]>
   (<["amount_total" := VFloat (S754_finite false 8796093022208000 (-43))]>
    (<["file_url" := VStr "https://project.supabase.co/storage/v1/object/public/invoices/0b5e_a.pdf"]>
     {[ "original_file_name" := VStr "a.pdf" ]}))).


(** ** Notions used in the further properties *)

(** A date written day first with slashes, DD/MM/YYYY. *)
Definition dmy_text (dt : PyDate.date) : string :=
  PyDate.pad2 (PyDate.day dt)
    (String "/" (PyDate.pad2 (PyDate.month dt)
       (String "/" (PyDate.pad4 (PyDate.year dt) EmptyString)))).

(** The string does not start with white space. *)
Definition starts_clean (s : string) : bool :=
  match s with
  | EmptyString => true
  | String c _ => negb (PyStr.isspace c)
  end.

(** The characters of a date written with slashes. *)
Definition slash_date_char (c : ascii) : bool := PyStr.isdigit c || Ascii.eqb c "/".

(** The fields that the normaliser treats as plain text. *)
Definition is_plain_key (key : string) : bool :=
  negb (is_date_key key) && negb (PyStr.eqb key "vat_percent") && negb (is_amount_key key).

Definition is_text (v : value) : bool :=
  match v with VStr _ => true | _ => false end.

(** The fixed replies of [handle_pdf] and [handle_menu] not named above. *)
Definition not_a_pdf : string := "Это не PDF-файл.".
Definition llm_failed : string := "Ошибка LLM: ".
Definition ask_number : string := "Введи номер инвойса (например, ES-AEU-2025-407254):".

(** What [extract_invoice_data_with_llm] returns for a text: the answer of
    the model, parsed. *)
Definition extraction (E : env) (text : string) : result value :=
  content ← chat_completion E (prompt text);
  parse_response content.

(** The name under which [upload_pdf_to_supabase] stores a file, and the
    URL it returns. *)
Definition unique_name (E : env) (file_name : string) : string :=
  uuid4 E ++ "_" ++ file_name.

Definition public_url (E : env) (file_name : string) : string :=
  SUPABASE_URL E ++ "/storage/v1/object/public/" ++ STORAGE_BUCKET E
  ++ "/" ++ unique_name E file_name.

Definition is_dict (v : value) : bool :=
  match v with VDict _ => true | _ => false end.

(** The events of [handle_pdf] up to the extraction. *)
Definition read_events (doc : document) (text : string) : list event :=
  [EvDownload ("./" ++ file_name doc); EvCompletion (prompt text)].

(** * Properties *)

(** ** The state and exception monad *)

Ltac run :=
  unfold mbind, M_bind, mret, M_ret, lift, try_catch, raise; cbv beta iota.

Lemma put_put l d1 d2 w : put l d2 (put l d1 w) = put l d2 w.
Proof. unfold put; simpl. by rewrite insert_insert_eq. Qed.

Lemma put_same l d w : objects w !! l = Some d -> put l d w = w.
Proof. intros H. destruct w; unfold put; simpl in *. by rewrite insert_id. Qed.

Lemma objects_put l d w : objects (put l d w) !! l = Some d.
Proof. unfold put; simpl. apply lookup_insert_eq. Qed.

Lemma deref_put l d w : deref (put l d w) l = d.
Proof. unfold deref. by rewrite objects_put. Qed.

Lemma deref_some l d w : objects w !! l = Some d -> deref w l = d.
Proof. unfold deref. by intros ->. Qed.

Lemma setitem_put l k v d w :
  objects w !! l = Some d -> setitem l k v w = (Ok tt, put l (<[k := v]> d) w).
Proof. intros H. unfold setitem, put. by rewrite (deref_some _ _ _ H). Qed.

(** ** The loop of [clean_invoice_data] *)

(** One round of the loop leaves [clean_value] in the entry and touches
    nothing else. *)
Lemma clean_step_spec l k v d w :
  objects w !! l = Some d -> d !! k = Some v ->
  clean_step l k v w = (Ok tt, put l (<[k := clean_value k v]> d) w).
Proof.
  intros Hl Hk.
  assert (Hid : put l (<[k := v]> d) w = w).
  { rewrite insert_id by done. by apply put_same. }
  assert (Hset : forall x y, setitem l k y (put l (<[k := x]> d) w)
                             = (Ok tt, put l (<[k := y]> d) w)).
  { intros x y. rewrite (setitem_put l k y (<[k := x]> d)) by apply objects_put.
    by rewrite put_put, insert_insert_eq. }
  unfold clean_step, clean_value.
  destruct v as [| b | n | f | s | xs | m]; run;
    cbn [is_none negb]; rewrite ?andb_false_r, ?andb_true_r;
    repeat first
      [ rewrite (setitem_put l k _ d w Hl)
      | rewrite Hset
      | rewrite Hid
      | match goal with
        | |- context [if ?c then _ else _] => destruct c eqn:?; run
        | |- context [match ?r with Ok _ => _ | Raise _ => _ end] => destruct r eqn:?; run
        end ];
    try reflexivity.
Qed.

(** The loop over the entries still to visit: every visited entry holds
    its [clean_value], the others are as they were. *)
Lemma clean_loop_spec l todo : forall d w,
  objects w !! l = Some d ->
  NoDup todo.*1 ->
  (forall k v, (k, v) ∈ todo -> d !! k = Some v) ->
  exists d',
    clean_loop l todo w = (Ok tt, put l d' w) /\
    forall k, d' !! k =
              match list_to_map (M := dict) todo !! k with
              | Some v => Some (clean_value k v)
              | None => d !! k
              end.
Proof.
  induction todo as [| [k v] todo IH]; intros d w Hl Hnd Hin.
  - exists d. split; [| done].
    simpl. run. by rewrite put_same.
  - inversion Hnd as [| ? ? Hk Hnd']; subst.
    assert (Hkv : d !! k = Some v) by (apply Hin; left).
    destruct (IH (<[k := clean_value k v]> d) (put l (<[k := clean_value k v]> d) w))
      as (d' & Hrun & Hd'); [apply objects_put | done | |].
    { intros k' v' Hin'.
      rewrite lookup_insert_ne; [apply Hin; by right |].
      intros ->. apply Hk. apply list_elem_of_fmap. by exists (k', v'). }
    exists d'. split.
    + simpl. run. rewrite (clean_step_spec l k v d w Hl Hkv).
      rewrite Hrun. by rewrite put_put.
    + intros k'. rewrite Hd'. simpl.
      destruct (decide (k = k')) as [-> | Hne].
      * rewrite lookup_insert_eq.
        rewrite (not_elem_of_list_to_map_1 (M := gmap string)) by done.
        by rewrite lookup_insert_eq.
      * rewrite !lookup_insert_ne by done. done.
Qed.

(** [clean_invoice_data] returns the reference it was given, with the
    object behind it rewritten entry by entry. *)
Lemma clean_invoice_data_spec l d w :
  objects w !! l = Some d ->
  clean_invoice_data l w = (Ok l, put l (clean_dict d) w).
Proof.
  intros Hl. unfold clean_invoice_data, items. run.
  rewrite (deref_some _ _ _ Hl).
  destruct (clean_loop_spec l (map_to_list d) d w Hl) as (d' & Hrun & Hd').
  { apply NoDup_fst_map_to_list. }
  { intros k v. apply elem_of_map_to_list. }
  rewrite Hrun. do 2 f_equal.
  apply map_eq. intros k. rewrite Hd'. unfold clean_dict.
  rewrite list_to_map_to_list, map_lookup_imap.
  by destruct (d !! k).
Qed.

(** ** Characters and strings *)

Ltac by_cases_on_char c :=
  destruct c as [[] [] [] [] [] [] [] []]; vm_compute; congruence.

Lemma isdigit_not_space c : PyStr.isdigit c = true -> PyStr.isspace c = false.
Proof. by_cases_on_char c. Qed.

Lemma isdigit_not_slash c : PyStr.isdigit c = true -> Ascii.eqb c "/" = false.
Proof. by_cases_on_char c. Qed.

(** Enumerates an integer known to lie in a short interval. *)
Ltac zcases m lo fuel :=
  lazymatch fuel with
  | O => exfalso; lia
  | S ?f =>
      destruct (Z.eq_dec m lo) as [-> | ?];
      [ | let lo' := eval compute in (lo + 1) in zcases m lo' f ]
  end.

Lemma digit_char_isdigit n : PyStr.isdigit (PyStr.digit_char (n mod 10)) = true.
Proof.
  pose proof (Z.mod_pos_bound n 10 ltac:(lia)).
  generalize dependent (n mod 10). intros k Hk.
  zcases k 0 10%nat; reflexivity.
Qed.

Lemma digit_char_val n : PyStr.digit_val (PyStr.digit_char (n mod 10)) = n mod 10.
Proof.
  pose proof (Z.mod_pos_bound n 10 ltac:(lia)).
  generalize dependent (n mod 10). intros k Hk.
  zcases k 0 10%nat; reflexivity.
Qed.

Lemma lstrip_nonspace c s :
  PyStr.isspace c = false -> PyStr.lstrip (String c s) = String c s.
Proof. intros H. simpl. by rewrite H. Qed.

Lemma rstrip_no_space s :
  all_chars (fun c => negb (PyStr.isspace c)) s = true -> PyStr.rstrip s = s.
Proof.
  induction s as [| c s IH]; [done |]. simpl.
  intros [Hc Hs]%andb_true_iff. rewrite IH by done.
  apply negb_true_iff in Hc. rewrite Hc. by destruct s.
Qed.

Lemma strip_no_space s :
  all_chars (fun c => negb (PyStr.isspace c)) s = true -> PyStr.strip s = s.
Proof.
  intros H. unfold PyStr.strip.
  destruct s as [| c s]; [done |].
  pose proof H as [Hc _]%andb_true_iff. apply negb_true_iff in Hc.
  rewrite lstrip_nonspace by done. by apply rstrip_no_space.
Qed.

Lemma contains_char_false (c : ascii) s :
  all_chars (fun a => negb (Ascii.eqb a c)) s = true ->
  PyStr.contains (String c EmptyString) s = false.
Proof.
  induction s as [| a s IH]; [done |].
  intros [Ha Hs]%andb_true_iff. apply negb_true_iff in Ha.
  simpl. rewrite IH by done.
  destruct (ascii_dec c a) as [-> | ?]; [by rewrite Ascii.eqb_refl in Ha | done].
Qed.

(** ** Dates: what [strftime] writes, [strptime] reads back *)

Lemma two_digits_pad2 lo1 hi1 lo2 hi2 n rest :
  lo1 <= n / 10 mod 10 <= hi1 -> lo2 <= n mod 10 <= hi2 ->
  PyDate.two_digits lo1 hi1 lo2 hi2 (PyDate.pad2 n rest) = [(n mod 100, rest)].
Proof.
  intros H1 H2. unfold PyDate.two_digits, PyDate.pad2.
  rewrite !digit_char_isdigit, !digit_char_val.
  replace (lo1 <=? n / 10 mod 10) with true by (symmetry; apply Z.leb_le; lia).
  replace (n / 10 mod 10 <=? hi1) with true by (symmetry; apply Z.leb_le; lia).
  replace (lo2 <=? n mod 10) with true by (symmetry; apply Z.leb_le; lia).
  replace (n mod 10 <=? hi2) with true by (symmetry; apply Z.leb_le; lia).
  simpl. do 2 f_equal.
  change 100 with (10 * 10). rewrite Z.rem_mul_r by lia. lia.
Qed.

Lemma two_digits_any n rest :
  PyDate.two_digits 0 9 0 9 (PyDate.pad2 n rest) = [(n mod 100, rest)].
Proof.
  apply two_digits_pad2.
  - pose proof (Z.mod_pos_bound (n / 10) 10). lia.
  - pose proof (Z.mod_pos_bound n 10). lia.
Qed.

Lemma directive_Y_pad4 y rest :
  0 <= y <= 9999 -> PyDate.directive_Y (PyDate.pad4 y rest) = [(y, rest)].
Proof.
  intros Hy. unfold PyDate.directive_Y, PyDate.seq, PyDate.pad4, PyDate.yield.
  rewrite two_digits_any. cbn [map List.concat app].
  rewrite two_digits_any. cbn [map List.concat app].
  do 2 f_equal.
  rewrite (Z.mod_small (y / 100)) by (split; [apply Z.div_pos | apply Z.div_lt_upper_bound]; lia).
  pose proof (Z.div_mod y 100 ltac:(lia)). lia.
Qed.

(** The alternatives of [%m] and [%d] start with the reading of the two
    digits that [strftime] writes. *)
Lemma directive_m_pad2 m rest :
  1 <= m <= 12 -> exists more, PyDate.directive_m (PyDate.pad2 m rest) = (m, rest) :: more.
Proof.
  intros Hm. zcases m 1 12%nat; eexists; reflexivity.
Qed.

Lemma directive_d_pad2 d rest :
  1 <= d <= 31 -> exists more, PyDate.directive_d (PyDate.pad2 d rest) = (d, rest) :: more.
Proof.
  intros Hd. zcases d 1 31%nat; eexists; reflexivity.
Qed.

Lemma seq_cons {A B} (m : PyDate.matcher A) (k : A -> PyDate.matcher B) s a r more :
  m s = (a, r) :: more ->
  PyDate.seq m k s = (k a r ++ PyDate.seq (fun _ => more) k s)%list.
Proof. unfold PyDate.seq. by intros ->. Qed.




Lemma all_chars_impl (p q : ascii -> bool) s :
  (forall c, p c = true -> q c = true) -> all_chars p s = true -> all_chars q s = true.
Proof.
  intros Hpq. induction s as [| c s IH]; [done |]. simpl.
  intros [Hc Hs]%andb_true_iff. by rewrite (Hpq c Hc), IH.
Qed.

Lemma strftime_chars dt : all_chars date_char (PyDate.strftime dt) = true.
Proof.
  unfold PyDate.strftime, PyDate.pad4, PyDate.pad2, date_char. simpl.
  by rewrite !digit_char_isdigit.
Qed.

Lemma date_char_not_space c : date_char c = true -> negb (PyStr.isspace c) = true.
Proof. unfold date_char. by_cases_on_char c. Qed.

Lemma date_char_not_slash c : date_char c = true -> negb (Ascii.eqb c "/") = true.
Proof. unfold date_char. by_cases_on_char c. Qed.

Lemma strip_strftime dt : PyStr.strip (PyDate.strftime dt) = PyDate.strftime dt.
Proof.
  apply strip_no_space, (all_chars_impl date_char); [apply date_char_not_space |].
  apply strftime_chars.
Qed.

Lemma strftime_nonempty dt : PyStr.nonempty (PyDate.strftime dt) = true.
Proof. reflexivity. Qed.





(** ** The normaliser, entry by entry *)

Lemma strip_empty_nonempty s : PyStr.eqb (PyStr.strip s) "" = false -> PyStr.nonempty s = true.
Proof. by destruct s. Qed.


Lemma clean_dict_lookup d key :
  clean_dict d !! key = clean_value key <$> d !! key.
Proof. unfold clean_dict. rewrite map_lookup_imap. by destruct (d !! key). Qed.

Lemma clean_invoice_data_dangling l w :
  objects w !! l = None -> clean_invoice_data l w = (Ok l, w).
Proof.
  intros Hl. unfold clean_invoice_data, items. run.
  unfold deref. rewrite Hl. simpl. by rewrite map_to_list_empty.
Qed.



(** ** Properties of the normaliser *)



(** C5, as the code has it.  [clean_invoice_data] is total: whatever record
    it is given, it returns without raising, every failing conversion
    having left [None] in its field.  It is not free of effects: it rewrites
    the dict it was handed and returns that same dict; nothing else in the
    world changes. *)
Theorem normalizer_total_in_place (data : loc) (w : world) :
  exists w',
    clean_invoice_data data w = (Ok data, w') /\
    deref w' data = clean_dict (deref w data) /\
    (forall l, l <> data -> objects w' !! l = objects w !! l) /\
    invoices w' = invoices w /\ user_data w' = user_data w /\ trace w' = trace w.
Proof.
  destruct (objects w !! data) as [d |] eqn:Hl.
  - exists (put data (clean_dict d) w).
    rewrite (clean_invoice_data_spec _ _ _ Hl), deref_put, (deref_some _ _ _ Hl).
    repeat split. intros l Hne. unfold put. simpl. by rewrite lookup_insert_ne.
  - exists w. rewrite (clean_invoice_data_dangling _ _ Hl).
    repeat split. unfold deref. rewrite Hl. simpl. unfold clean_dict.
    by rewrite map_imap_empty.
Qed.

(** C5 as stated fails: the call changes the record of its caller. *)
Lemma normalizer_not_pure :
  let w := world_of {[ "date_issued" := VStr "31/12/2024" ]} in
  deref w 0%nat !! "date_issued" = Some (VStr "31/12/2024") /\
  deref (snd (clean_invoice_data 0%nat w)) 0%nat !! "date_issued" = Some (VStr "2024-12-31") /\
  snd (clean_invoice_data 0%nat w) <> w.
Proof.
  intros w. split; [reflexivity |]. split; [reflexivity |].
  intros H. apply (f_equal (fun x => deref x 0%nat !! "date_issued")) in H.
  vm_compute in H. discriminate.
Qed.

(** What the normaliser leaves in a field of a live record. *)
Lemma cleaned_field data w d key v :
  objects w !! data = Some d -> d !! key = Some v ->
  deref (snd (clean_invoice_data data w)) data !! key = Some (clean_value key v).
Proof.
  intros Hl Hk. rewrite (clean_invoice_data_spec _ _ _ Hl). simpl.
  by rewrite deref_put, clean_dict_lookup, Hk.
Qed.

(** Among the field names, the date fields are the three dates. *)
Lemma date_fields key :
  In key field_names -> is_date_key key = true ->
  key = "date_issued" \/ key = "period_start" \/ key = "period_end".
Proof.
  unfold field_names. simpl.
  intros Hin Hdate.
  repeat (destruct Hin as [<- | Hin]; [first [discriminate Hdate | tauto] |]).
  done.
Qed.

Lemma clean_value_date key s :
  is_date_key key = true -> PyStr.eqb key "vat_percent" = false ->
  is_amount_key key = false ->
  clean_value key (VStr s) =
  or_none (PyDate.strptime (PyStr.strip s)
             (if PyStr.contains "/" s then PyDate.DMY_slash else PyDate.YMD_dash))
          (fun dt => VStr (PyDate.strftime dt)).
Proof.
  intros Hdate Hvat Hamt. unfold clean_value. rewrite Hdate, Hvat, Hamt. simpl.
  rewrite andb_true_r.
  destruct s as [| c s]; [reflexivity |]. simpl PyStr.nonempty. cbv iota.
  unfold parse_date. by destruct (PyStr.contains "/" (String c s)).
Qed.



Lemma clean_value_percent s :
  clean_value "vat_percent" (VStr s) = or_none (percent_float s) VFloat.
Proof.
  unfold clean_value.
  change (is_amount_key "vat_percent") with false.
  change (PyStr.eqb "vat_percent" "vat_percent") with true.
  change (is_date_key "vat_percent") with false.
  rewrite andb_false_r. simpl.
  destruct s as [| c s]; reflexivity.
Qed.

Lemma clean_value_percent_other v :
  (forall s, v <> VStr s) -> clean_value "vat_percent" v = v.
Proof.
  intros Hv. unfold clean_value.
  change (is_amount_key "vat_percent") with false. simpl.
  destruct v; try reflexivity. by destruct (Hv s).
Qed.

Lemma clean_value_amount key v :
  is_amount_key key = true -> v <> VNone ->
  clean_value key v = or_none (amount_float v) VFloat.
Proof.
  intros Hk Hv. unfold clean_value. rewrite Hk.
  by destruct v.
Qed.

(** C4, as the code has it.  In [vat_percent] a string has its percent
    signs removed and its commas turned into dots and is read as a float;
    a value that is not a string (a number of the JSON text) stays as it is.
    In a field whose name starts with [amount_] every value but [None] is
    written out with [str], loses [EUR] and the spaces, has its commas
    turned into dots and is read as a float.  In both, a failed reading
    leaves [None]. *)
Theorem numeric_coercion (data : loc) (w : world) (d : dict) (key : string) (v : value) :
  objects w !! data = Some d -> d !! key = Some v ->
  let after := deref (snd (clean_invoice_data data w)) data in
  (key = "vat_percent" ->
     (forall s, v = VStr s -> after !! key = Some (or_none (percent_float s) VFloat)) /\
     ((forall s, v <> VStr s) -> after !! key = Some v) /\
     (v = VStr "19%" -> after !! key = Some (VFloat float_19)) /\
     (v = VStr "19,5 %" -> after !! key = Some (VFloat float_19_5)) /\
     (v = VStr "abc" -> after !! key = Some VNone)) /\
  (is_amount_key key = true ->
     (v <> VNone -> after !! key = Some (or_none (amount_float v) VFloat)) /\
     (v = VStr "1234,56 EUR" -> after !! key = Some (VFloat float_1234_56)) /\
     (v = VStr "abc" -> after !! key = Some VNone)).
Proof.
  intros Hl Hk after. subst after.
  rewrite (cleaned_field _ _ _ _ _ Hl Hk).
  split.
  - intros ->. repeat split.
    + intros s ->. by rewrite clean_value_percent.
    + intros Hv. by rewrite clean_value_percent_other.
    + intros ->. by rewrite clean_value_percent.
    + intros ->. by rewrite clean_value_percent.
    + intros ->. by rewrite clean_value_percent.
  - intros Hamt. repeat split.
    + intros Hv. by rewrite clean_value_amount.
    + intros ->. by rewrite clean_value_amount.
    + intros ->. by rewrite clean_value_amount.
Qed.

Lemma numeric_coercion_witness :
  let d : dict := <["vat_percent" := VStr "21 %"]> {[ "amount_vat" := VInt 210 ]} in
  deref (snd (clean_invoice_data 0%nat (world_of d))) 0%nat !! "amount_vat"
  = Some (or_none (amount_float (VInt 210)) VFloat).
Proof.
  intros d.
  refine (proj1 (proj2 (numeric_coercion 0%nat (world_of d) d "amount_vat" (VInt 210) _ _) _) _).
  - reflexivity.
  - reflexivity.
  - reflexivity.
  - discriminate.
Defined.

(** C4 as stated fails on a number: [{"vat_percent": 19}] keeps the integer
    19, it is not read as the float 19.0. *)
Lemma numeric_vat_percent_not_parsed :
  let d : dict := {[ "vat_percent" := VInt 19 ]} in
  let after := deref (snd (clean_invoice_data 0%nat (world_of d))) 0%nat in
  after !! "vat_percent" = Some (VInt 19) /\
  after !! "vat_percent" <> Some (VFloat float_19).
Proof.
  intros d after. split; [reflexivity |]. vm_compute. discriminate.
Qed.

(** ** The response of the model *)

Lemma contains_char_cons (c a : ascii) r :
  PyStr.contains (String c EmptyString) (String a r)
  = Ascii.eqb a c || PyStr.contains (String c EmptyString) r.
Proof.
  simpl. destruct (ascii_dec c a) as [-> | Hne].
  - rewrite Ascii.eqb_refl. by destruct r.
  - apply Ascii.eqb_neq in Hne. rewrite Ascii.eqb_sym in Hne. by rewrite Hne.
Qed.

Lemma through_last_close_none s :
  through_last_close s = None -> PyStr.contains "}" s = false.
Proof.
  induction s as [| a r IH]; [done |]. simpl through_last_close.
  destruct (through_last_close r); [discriminate |].
  destruct (Ascii.eqb a "}") eqn:Ha; [discriminate |]. intros _.
  by rewrite contains_char_cons, Ha, IH.
Qed.

Lemma through_last_close_some s t :
  through_last_close s = Some t ->
  exists body post,
    s = body ++ "}" ++ post /\ t = body ++ "}" /\ PyStr.contains "}" post = false.
Proof.
  revert t. induction s as [| a r IH]; [done |]. simpl through_last_close.
  intros t. destruct (through_last_close r) as [t' |] eqn:Hr.
  - intros [= <-]. destruct (IH t' eq_refl) as (body & post & -> & -> & Hpost).
    by exists (String a body), post.
  - destruct (Ascii.eqb a "}") eqn:Ha; [| discriminate].
    intros [= <-]. apply Ascii.eqb_eq in Ha as ->.
    exists EmptyString, r. by rewrite (through_last_close_none r Hr).
Qed.

(** The fallback text runs from the first opening brace to the last closing
    brace. *)
Lemma brace_search_some content m :
  brace_search content = Some m ->
  exists pre body post,
    content = pre ++ "{" ++ body ++ "}" ++ post /\ m = "{" ++ body ++ "}" /\
    PyStr.contains "{" pre = false /\ PyStr.contains "}" post = false.
Proof.
  induction content as [| a r IH]; [done |]. simpl brace_search.
  destruct (Ascii.eqb a "{") eqn:Ha.
  - apply Ascii.eqb_eq in Ha as ->.
    destruct (through_last_close r) as [t |] eqn:Hr; [| discriminate].
    intros [= <-].
    destruct (through_last_close_some r t Hr) as (body & post & -> & -> & Hpost).
    by exists EmptyString, body, post.
  - intros Hm. destruct (IH Hm) as (pre & body & post & -> & -> & Hpre & Hpost).
    exists (String a pre), body, post. repeat split; try done.
    by rewrite contains_char_cons, Ha, Hpre.
Qed.

(** There is no fallback text when no closing brace follows the first
    opening brace. *)
Lemma brace_search_none content :
  brace_search content = None ->
  PyStr.contains "{" content = false \/
  exists pre rest,
    content = pre ++ "{" ++ rest /\
    PyStr.contains "{" pre = false /\ PyStr.contains "}" rest = false.
Proof.
  induction content as [| a r IH]; [by left |]. simpl brace_search.
  destruct (Ascii.eqb a "{") eqn:Ha.
  - apply Ascii.eqb_eq in Ha as ->.
    destruct (through_last_close r) as [t |] eqn:Hr; [discriminate |]. intros _.
    right. exists EmptyString, r. by rewrite (through_last_close_none r Hr).
  - intros Hn. destruct (IH Hn) as [Hno | (pre & rest & -> & Hpre & Hrest)].
    + left. by rewrite contains_char_cons, Ha, Hno.
    + right. exists (String a pre), rest. repeat split; try done.
      by rewrite contains_char_cons, Ha, Hpre.
Qed.

(** C6, as the code has it.  The response is parsed as JSON; when that
    fails, the text from the first opening brace to the last closing brace
    is parsed instead, and its value or its own decoding error is the
    outcome; only when there is no such text does the function raise
    [ValueError("LLM did not return valid JSON")].  The response of the
    specification's example yields the record with the one field. *)
Theorem extraction_response_parsing (E : env) (text : string) (w : world) (content : string) :
  (forall v, Json.loads content = Ok v -> parse_response content = Ok v) /\
  (forall e, Json.loads content = Raise e ->
     (forall m, brace_search content = Some m ->
        parse_response content = Json.loads m /\
        exists pre body post,
          content = pre ++ "{" ++ body ++ "}" ++ post /\ m = "{" ++ body ++ "}" /\
          PyStr.contains "{" pre = false /\ PyStr.contains "}" post = false) /\
     (brace_search content = None ->
        parse_response content = Raise (ValueError "LLM did not return valid JSON"))) /\
  (chat_completion E (prompt text) = Ok content ->
     fst (extract_invoice_data_with_llm E text w) = parse_response content) /\
  (let q s := String Json.dq (s ++ String Json.dq EmptyString) in
   content = "here you go: {" ++ q "invoice_number" ++ ": " ++ q "X" ++ "} thanks" ->
   parse_response content = Ok (VDict {[ "invoice_number" := VStr "X" ]})).
Proof.
  split; [| split; [| split]].
  - intros v Hv. unfold parse_response. by rewrite Hv.
  - intros e He. split.
    + intros m Hm. split; [| by apply brace_search_some].
      unfold parse_response. rewrite He. simpl. by rewrite Hm.
    + intros Hn. unfold parse_response. rewrite He. simpl. by rewrite Hn.
  - intros Hc. unfold extract_invoice_data_with_llm, emit. run. rewrite Hc.
    by destruct (parse_response content).
  - intros q ->. vm_compute. reflexivity.
Qed.

Lemma extraction_response_parsing_witness :
  let q s := String Json.dq (s ++ String Json.dq EmptyString) in
  let content := "Sure: {" ++ q "amount_total" ++ ": 12.5, " ++ q "seller_vat" ++ ": null}" in
  let E := Env (fun _ => Ok []) (fun _ => Ok content) (fun _ => Ok tt) "u" None "s" "b" in
  fst (extract_invoice_data_with_llm E "text" (world_of ∅))
  = Json.loads ("{" ++ q "amount_total" ++ ": 12.5, " ++ q "seller_vat" ++ ": null}").
Proof.
  intros q content E.
  destruct (extraction_response_parsing E "text" (world_of ∅) content)
    as (_ & Hfallback & Hextract & _).
  rewrite (Hextract eq_refl).
  destruct (Hfallback (Json.JSONDecodeError "Expecting value") eq_refl) as [Hsome _].
  exact (proj1 (Hsome _ eq_refl)).
Defined.

(** C6 as stated fails: for the response [{oops}] both attempts fail, and
    the error is the decoder's own, not the [ValueError] with the fixed
    message. *)
Lemma extraction_second_failure_is_decoders :
  Json.loads "{oops}" = Raise (Json.JSONDecodeError "Expecting property name enclosed in double quotes") /\
  brace_search "{oops}" = Some "{oops}" /\
  parse_response "{oops}"
  = Raise (Json.JSONDecodeError "Expecting property name enclosed in double quotes") /\
  parse_response "{oops}" <> Raise (ValueError "LLM did not return valid JSON") /\
  parse_response "{oops}" <> Raise (ValueError "model did not return valid JSON").
Proof. repeat split; vm_compute; congruence. Qed.

(** ** The menu handler: retrieval and the waiting flag *)

Lemma emit_run ev w : emit ev w = (Ok tt, logged [ev] w).
Proof. reflexivity. Qed.

Lemma head_filter_find {A} (p : A -> bool) (l : list A) :
  head (List.filter p l) = List.find p l.
Proof. induction l as [| a l IH]; [done |]. simpl. by destruct (p a). Qed.

(** A text received while the flag is set: the flag is put down, the
    store is asked once, one reply goes out. *)
Lemma handle_menu_awaiting text w :
  text <> menu_caption ->
  truthy (dict_get (user_data w) "awaiting_invoice_number") = true ->
  handle_menu text w =
  (Ok tt,
   logged [EvUserData "awaiting_invoice_number" (VBool false);
           EvSelect (PyStr.strip text);
           lookup_reply (PyStr.strip text) (invoices w)]
     (with_user_data "awaiting_invoice_number" (VBool false) w)).
Proof.
  intros Hne Hflag. unfold handle_menu.
  apply String.eqb_neq in Hne. rewrite Hne.
  unfold get_user_data, set_user_data, store_select, table_rows, lookup_reply. run.
  rewrite Hflag. rewrite !emit_run. simpl.
  rewrite <- head_filter_find.
  destruct (List.filter (has_invoice_number (PyStr.strip text)) (invoices w))
    as [| row rows]; simpl; rewrite emit_run;
    unfold logged, with_user_data; simpl; by rewrite <- !app_assoc.
Qed.

(** A text received while the flag is not set is answered without a
    lookup. *)
Lemma handle_menu_idle text w :
  text <> menu_caption ->
  truthy (dict_get (user_data w) "awaiting_invoice_number") = false ->
  handle_menu text w = (Ok tt, logged [EvReplyText send_pdf] w).
Proof.
  intros Hne Hflag. unfold handle_menu.
  apply String.eqb_neq in Hne. rewrite Hne.
  unfold get_user_data. run. by rewrite Hflag.
Qed.

Lemma find_first {A} (p : A -> bool) (l : list A) :
  match List.find p l with
  | None => forallb (fun a => negb (p a)) l = true
  | Some x =>
      exists before after,
        l = (before ++ x :: after)%list /\
        forallb (fun a => negb (p a)) before = true /\ p x = true
  end.
Proof.
  induction l as [| a l IH]; [done |]. simpl.
  destruct (p a) eqn:Ha.
  - by exists [], l.
  - destruct (List.find p l) as [x |].
    + destruct IH as (before & after & -> & Hb & Hx).
      exists (a :: before), after. simpl. by rewrite Ha, Hb.
    + done.
Qed.

Lemma flag_down_is_falsy (ud : dict) :
  truthy (dict_get (<["awaiting_invoice_number" := VBool false]> ud)
            "awaiting_invoice_number") = false.
Proof. unfold dict_get. by rewrite lookup_insert_eq. Qed.

(** C7. Retrieval: a text received while the bot waits for an invoice
    number is stripped and looked up by equality in the store; the handler
    returns without raising and leaves the table as it is.  With no matching
    row it answers that there is no such invoice; otherwise it sends the
    [file_url] of the first matching row under its [original_file_name], or
    under [<invoice_number>.pdf] when the stored name is missing, null or
    empty. *)
Theorem retrieval (text : string) (w : world) :
  text <> menu_caption ->
  truthy (dict_get (user_data w) "awaiting_invoice_number") = true ->
  let invoice_number := PyStr.strip text in
  let matches := has_invoice_number invoice_number in
  let w' := snd (handle_menu text w) in
  fst (handle_menu text w) = Ok tt /\
  invoices w' = invoices w /\
  objects w' = objects w /\
  exists reply,
    trace w' = (trace w ++ [EvUserData "awaiting_invoice_number" (VBool false);
                            EvSelect invoice_number; reply])%list /\
    ((forallb (fun row => negb (matches row)) (invoices w) = true /\
      reply = EvReplyText not_found)
     \/
     (exists before row after,
        invoices w = (before ++ row :: after)%list /\
        forallb (fun r => negb (matches r)) before = true /\
        row !! "invoice_number" = Some (VStr invoice_number) /\
        reply = EvReplyDocument (dict_get row "file_url")
                  (if truthy (dict_get row "original_file_name")
                   then dict_get row "original_file_name"
                   else VStr (invoice_number ++ ".pdf")))).
Proof.
  intros Hne Hflag invoice_number matches w'. subst w'.
  rewrite (handle_menu_awaiting text w Hne Hflag). simpl.
  repeat split.
  exists (lookup_reply invoice_number (invoices w)). split; [done |].
  unfold lookup_reply.
  pose proof (find_first matches (invoices w)) as Hfind.
  fold matches. destruct (List.find matches (invoices w)) as [row |].
  - right. destruct Hfind as (before & after & Hsplit & Hbefore & Hrow).
    exists before, row, after. repeat split; try done.
    unfold matches, has_invoice_number in Hrow.
    destruct (row !! "invoice_number") as [[] |]; try discriminate.
    by apply String.eqb_eq in Hrow as ->.
  - by left.
Qed.

Lemma retrieval_witness :
  let row1 : dict := <["invoice_number" := VStr "ES-1"]> {[ "file_url" := VStr "u1" ]} in
  let row2 : dict := <["invoice_number" := VStr "ES-2"]>
                     (<["file_url" := VStr "u2"]> {[ "original_file_name" := VStr "two.pdf" ]}) in
  let w := waiting_world [row1; row2] in
  fst (handle_menu " ES-2 " w) = Ok tt /\
  invoices (snd (handle_menu " ES-2 " w)) = [row1; row2].
Proof.
  intros row1 row2 w.
  destruct (retrieval " ES-2 " w) as (Hok & Hrows & _).
  - discriminate.
  - reflexivity.
  - split; [exact Hok | exact Hrows].
Defined.

(** C10. While the flag is set, a text makes the handler put the flag down
    before it asks the store, whatever the lookup finds: the flag is
    false afterwards, the write of the flag precedes the one lookup in the
    trace, and the next text is answered without a lookup. *)
Theorem awaiting_flag_cleared_before_lookup (text : string) (w : world) :
  text <> menu_caption ->
  truthy (dict_get (user_data w) "awaiting_invoice_number") = true ->
  let w' := snd (handle_menu text w) in
  user_data w' !! "awaiting_invoice_number" = Some (VBool false) /\
  (exists reply,
     trace w' = (trace w ++ [EvUserData "awaiting_invoice_number" (VBool false);
                             EvSelect (PyStr.strip text); reply])%list /\
     (reply = EvReplyText not_found \/ exists doc name, reply = EvReplyDocument doc name)) /\
  (forall text', text' <> menu_caption ->
     handle_menu text' w' = (Ok tt, logged [EvReplyText send_pdf] w')).
Proof.
  intros Hne Hflag w'. subst w'.
  rewrite (handle_menu_awaiting text w Hne Hflag). simpl.
  split; [apply lookup_insert_eq |]. split.
  - eexists. split; [reflexivity |]. unfold lookup_reply.
    destruct (List.find _ _); eauto.
  - intros text' Hne'. apply handle_menu_idle; [done |]. simpl.
    apply flag_down_is_falsy.
Qed.

Lemma awaiting_flag_cleared_before_lookup_witness :
  let w := waiting_world [] in
  user_data (snd (handle_menu "ES-404" w)) !! "awaiting_invoice_number" = Some (VBool false).
Proof.
  intros w.
  refine (proj1 (awaiting_flag_cleared_before_lookup "ES-404" w _ _)).
  - discriminate.
  - reflexivity.
Defined.

(** ** The document handler: text conversion and persistence *)

Lemma page_texts_all_ok (pages : list (option string)) :
  page_texts (map Ok pages) = Ok (map (default EmptyString) pages).
Proof.
  induction pages as [| p pages IH]; [done |]. simpl.
  unfold mbind, result_bind. by rewrite IH.
Qed.

(** C9, as the code has it.  [pdf_to_text] joins the texts of the pages,
    a page without text counting as the empty string.  [handle_pdf] calls
    it outside any [try]: when the conversion raises, the exception leaves
    the handler right after the download; no text, empty or not, reaches
    the extraction, nothing is replied and the staged file stays. *)
Theorem text_conversion (E : env) (doc : document) (w : world) :
  mime_type doc = "application/pdf" ->
  let path := "./" ++ file_name doc in
  (forall pages,
     pdf_pages E path = Ok (map Ok pages) ->
     pdf_to_text E path = Ok (PyStr.join nl (map (default EmptyString) pages))) /\
  (forall e,
     pdf_to_text E path = Raise e ->
     handle_pdf E doc w = (Raise e, logged [EvDownload path] w)).
Proof.
  intros Hmime path. split.
  - intros pages Hpages. unfold pdf_to_text. rewrite Hpages. simpl.
    unfold mbind, result_bind. by rewrite page_texts_all_ok.
  - intros e He. unfold handle_pdf. rewrite Hmime, String.eqb_refl. cbn [negb].
    run. rewrite emit_run. fold path. by rewrite He.
Qed.

Lemma text_conversion_witness :
  let E := Env (fun _ => Ok [Ok (Some "Invoice ES-1"); Ok None; Ok (Some "total 10")])
               (fun _ => Ok "{}") (fun _ => Ok tt) "u" None "s" "b" in
  pdf_to_text E "./a.pdf" = Ok ("Invoice ES-1" ++ nl ++ nl ++ "total 10").
Proof.
  intros E.
  exact (proj1 (text_conversion E (Document "application/pdf" "a.pdf") (world_of ∅) eq_refl)
           [Some "Invoice ES-1"; None; Some "total 10"] eq_refl).
Defined.

(** C9 as stated fails: a PDF that cannot be opened aborts the run. *)
Lemma text_conversion_error_aborts :
  let broken := Exn "PDFSyntaxError" ["No /Root object! - Is this really a PDF?"] in
  let E := Env (fun _ => Raise broken) (fun _ => Ok "{}") (fun _ => Ok tt) "u" None "s" "b" in
  let doc := Document "application/pdf" "a.pdf" in
  handle_pdf E doc (world_of ∅) = (Raise broken, logged [EvDownload "./a.pdf"] (world_of ∅)) /\
  fst (handle_pdf E doc (world_of ∅)) <> Ok tt.
Proof. intros broken E doc. split; [reflexivity | discriminate]. Qed.

Lemma logged_logged a b w : logged b (logged a w) = logged (a ++ b) w.
Proof. unfold logged. simpl. by rewrite app_assoc. Qed.

Lemma insert_invoice_run E l d w :
  objects w !! l = Some d ->
  insert_invoice E l w =
  let row := clean_dict d in
  let w1 := logged [EvInsert row] (put l row w) in
  match insert_failure E with
  | Some e => (Raise e, w1)
  | None =>
      if existsb (same_invoice_number row) (invoices w)
      then (Raise unique_violation, w1)
      else (Ok tt, with_row row w1)
  end.
Proof.
  intros Hl. unfold insert_invoice, read, store_insert, table_rows. run.
  rewrite (clean_invoice_data_spec _ _ _ Hl). rewrite deref_put, emit_run.
  destruct (insert_failure E) as [e |]; [done |]. simpl.
  by destruct (existsb _ (invoices w)).
Qed.

Lemma is_duplicate_unique_violation : is_duplicate unique_violation = true.
Proof. reflexivity. Qed.

(** Steps 3 and 4 of [handle_pdf] in one equation: the record put together,
    normalised in place and offered to the store once; then the reply that
    fits the outcome, and the removal of the staged file. *)
Lemma persist_run E l d path url name w :
  objects w !! l = Some d ->
  persist E (Ref l) path url name w =
  let row := clean_dict (attach url name d) in
  let w1 := logged [EvInsert row] (put l row w) in
  (Ok tt,
   match insert_failure E with
   | Some e =>
       logged [if is_duplicate e then EvReplyText already_exists
               else EvReplyError write_failed e; EvRemove path] w1
   | None =>
       if existsb (same_invoice_number row) (invoices w)
       then logged [EvReplyText already_exists; EvRemove path] w1
       else logged [EvReplyRecord row; EvRemove path] (with_row row w1)
   end).
Proof.
  intros Hl. unfold persist, setitem_object. run.
  rewrite (setitem_put l _ _ d w Hl).
  rewrite (setitem_put l _ _ (<["file_url" := VStr url]> d)) by apply objects_put.
  rewrite put_put. fold (attach url name d).
  rewrite (insert_invoice_run E l (attach url name d)) by apply objects_put.
  cbv zeta. rewrite put_put. simpl invoices.
  destruct (insert_failure E) as [e |].
  - destruct (is_duplicate e); rewrite !emit_run, !logged_logged; reflexivity.
  - destruct (existsb _ (invoices w)).
    + rewrite is_duplicate_unique_violation, !emit_run, !logged_logged. reflexivity.
    + unfold read. rewrite !emit_run, !logged_logged.
      unfold deref, with_row, logged, put. simpl. by rewrite lookup_insert_eq.
Qed.


(** A text in a field that is no date, percentage or amount is kept,
    unless it is blank. *)
Lemma clean_value_plain key s :
  is_date_key key = false -> PyStr.eqb key "vat_percent" = false ->
  is_amount_key key = false ->
  clean_value key (VStr s) = if PyStr.eqb (PyStr.strip s) "" then VNone else VStr s.
Proof.
  intros Hdate Hvat Hamt. unfold clean_value. rewrite Hdate, Hvat, Hamt. simpl.
  by rewrite andb_false_r.
Qed.



Lemma same_invoice_number_text a b n :
  a !! "invoice_number" = Some (VStr n) -> b !! "invoice_number" = Some (VStr n) ->
  same_invoice_number a b = true.
Proof. intros Ha Hb. unfold same_invoice_number. rewrite Ha, Hb. apply String.eqb_refl. Qed.

(** C2. Uniqueness and classification at persistence.  With a store that
    fails only on its unique constraint, of two records carrying the same
    invoice number the first is stored and reported, the second is offered
    to the store once, refused, and answered as a duplicate.  Whatever
    failure the insert raises, [handle_pdf] answers with the duplicate text
    exactly when the failure carries the duplicate-key signature, and
    otherwise reports the failure itself; in either case the insert was
    issued once and is not repeated. *)
Theorem uniqueness_and_failure_classification
  (E : env) (data1 data2 : loc) (d1 d2 : dict) (n : string)
  (path1 url1 name1 path2 url2 name2 : string) (w : world) :
  objects w !! data1 = Some d1 -> objects w !! data2 = Some d2 -> data1 <> data2 ->
  let row1 := clean_dict (attach url1 name1 d1) in
  let row2 := clean_dict (attach url2 name2 d2) in
  row1 !! "invoice_number" = Some (VStr n) ->
  row2 !! "invoice_number" = Some (VStr n) ->
  (insert_failure E = None ->
   existsb (same_invoice_number row1) (invoices w) = false ->
   let w1 := snd (persist E (Ref data1) path1 url1 name1 w) in
   let w2 := snd (persist E (Ref data2) path2 url2 name2 w1) in
   invoices w1 = (invoices w ++ [row1])%list /\
   trace w1 = (trace w ++ [EvInsert row1; EvReplyRecord row1; EvRemove path1])%list /\
   invoices w2 = invoices w1 /\
   trace w2 = (trace w1 ++ [EvInsert row2; EvReplyText already_exists; EvRemove path2])%list) /\
  (forall e,
     insert_failure E = Some e ->
     let w1 := snd (persist E (Ref data1) path1 url1 name1 w) in
     fst (persist E (Ref data1) path1 url1 name1 w) = Ok tt /\
     invoices w1 = invoices w /\
     trace w1 = (trace w ++ [EvInsert row1;
                             if is_duplicate e then EvReplyText already_exists
                             else EvReplyError write_failed e;
                             EvRemove path1])%list) /\
  (forall e, is_duplicate e = true <->
             exists a rest, exn_args e = a :: rest /\ PyStr.contains duplicate_signature a = true).
Proof.
  intros Hl1 Hl2 Hne row1 row2 Hn1 Hn2. split; [| split].
  - intros Hnone Hfree w1 w2. subst w1 w2.
    rewrite (persist_run E data1 d1 path1 url1 name1 w Hl1). cbv zeta.
    rewrite Hnone. fold row1. rewrite Hfree. simpl snd.
    assert (Hl2' : objects (logged [EvReplyRecord row1; EvRemove path1]
                      (with_row row1 (logged [EvInsert row1] (put data1 row1 w))))
                   !! data2 = Some d2).
    { simpl. by rewrite lookup_insert_ne. }
    rewrite (persist_run E data2 d2 path2 url2 name2 _ Hl2'). cbv zeta.
    rewrite Hnone. fold row2. simpl invoices.
    rewrite existsb_app. simpl existsb.
    rewrite (same_invoice_number_text row2 row1 n) by done.
    rewrite orb_true_r. simpl.
    repeat split; by rewrite <- ?app_assoc.
  - intros e He w1. subst w1.
    rewrite (persist_run E data1 d1 path1 url1 name1 w Hl1). cbv zeta.
    rewrite He. fold row1. simpl.
    repeat split; by rewrite <- ?app_assoc.
  - intros e. unfold is_duplicate. destruct (exn_args e) as [| a rest].
    + split; [discriminate | by intros (? & ? & ? & ?)].
    + split; [by exists a, rest | by intros (? & ? & [= <- <-] & ?)].
Qed.

Lemma uniqueness_and_failure_classification_witness :
  let E := Env (fun _ => Ok []) (fun _ => Ok "{}") (fun _ => Ok tt) "u" None "s" "b" in
  let d1 : dict := <["invoice_number" := VStr "ES-AEU-2025-407254"]>
                   {[ "amount_total" := VStr "1000,00 EUR" ]} in
  let d2 : dict := <["invoice_number" := VStr "ES-AEU-2025-407254"]>
                   {[ "date_issued" := VStr "31/12/2024" ]} in
  let w := World (<[1%nat := d2]> {[ 0%nat := d1 ]}) [] ∅ [] in
  let w1 := snd (persist E (Ref 0%nat) "./a.pdf" "s/a.pdf" "a.pdf" w) in
  let w2 := snd (persist E (Ref 1%nat) "./b.pdf" "s/b.pdf" "b.pdf" w1) in
  invoices w2 = invoices w1 /\
  trace w2 = (trace w1 ++ [EvInsert (clean_dict (attach "s/b.pdf" "b.pdf" d2));
                           EvReplyText already_exists; EvRemove "./b.pdf"])%list.
Proof.
  intros E d1 d2 w w1 w2.
  destruct (uniqueness_and_failure_classification E 0%nat 1%nat d1 d2 "ES-AEU-2025-407254"
              "./a.pdf" "s/a.pdf" "a.pdf" "./b.pdf" "s/b.pdf" "b.pdf" w)
    as (Huniq & _).
  - reflexivity.
  - reflexivity.
  - discriminate.
  - reflexivity.
  - reflexivity.
  - destruct (Huniq eq_refl eq_refl) as (_ & _ & Hrows & Htrace).
    split; [exact Hrows | exact Htrace].
Defined.




(** [handle_pdf] up to the point where the record is persisted: the
    document is downloaded, converted, sent to the model, the answer is
    parsed into a fresh dict, the file is uploaded, and steps 3 and 4
    follow. *)
Lemma handle_pdf_run E doc w text content d :
  mime_type doc = "application/pdf" ->
  let path := "./" ++ file_name doc in
  let unique_name := uuid4 E ++ "_" ++ file_name doc in
  let url := SUPABASE_URL E ++ "/storage/v1/object/public/" ++ STORAGE_BUCKET E
             ++ "/" ++ unique_name in
  let data := fresh (dom (objects w)) in
  pdf_to_text E path = Ok text ->
  chat_completion E (prompt text) = Ok content ->
  parse_response content = Ok (VDict d) ->
  storage_upload E unique_name = Ok tt ->
  handle_pdf E doc w =
  persist E (Ref data) path url (file_name doc)
    (logged [EvUpload unique_name]
       (put data d (logged [EvDownload path; EvCompletion (prompt text)] w))).
Proof.
  intros Hmime path unique_name url data Htext Hcontent Hparse Hupload.
  unfold handle_pdf. rewrite Hmime, String.eqb_refl. cbn [negb].
  unfold extract_invoice_data_with_llm, upload_pdf_to_supabase, hold, new_dict.
  run. rewrite emit_run. fold path. rewrite Htext. cbv beta iota.
  rewrite emit_run, Hcontent, Hparse. cbv beta iota.
  rewrite emit_run. fold unique_name. rewrite Hupload. cbv beta iota.
  fold url. rewrite logged_logged. reflexivity.
Qed.

(** The URL that [upload_pdf_to_supabase] builds is never blank. *)
Lemma lstrip_all_space s :
  all_chars PyStr.isspace (PyStr.lstrip s) = true -> all_chars PyStr.isspace s = true.
Proof.
  induction s as [| c s IH]; [done |]. simpl.
  destruct (PyStr.isspace c) eqn:Hc; [done |]. simpl. by rewrite Hc.
Qed.

Lemma rstrip_empty s : PyStr.rstrip s = "" -> all_chars PyStr.isspace s = true.
Proof.
  induction s as [| c s IH]; [done |]. simpl.
  destruct (PyStr.rstrip s); [| discriminate].
  destruct (PyStr.isspace c); [| discriminate]. intros _. by apply IH.
Qed.

Lemma strip_empty s : PyStr.strip s = "" -> all_chars PyStr.isspace s = true.
Proof. intros H. by apply lstrip_all_space, rstrip_empty. Qed.

Lemma all_chars_app p a b : all_chars p (a ++ b) = all_chars p a && all_chars p b.
Proof. induction a as [| c a IH]; [done |]. simpl. by rewrite IH, andb_assoc. Qed.

Lemma upload_url_not_blank base bucket name :
  PyStr.strip (base ++ "/storage/v1/object/public/" ++ bucket ++ "/" ++ name) <> "".
Proof.
  intros H%strip_empty. rewrite all_chars_app in H.
  apply andb_true_iff in H as [_ H]. simpl in H. discriminate.
Qed.

(** ** Examples *)

Example float_of_text :
  PyFloat.py_float "19" = Ok float_19 /\
  PyFloat.py_float " 19.5" = Ok float_19_5 /\
  PyFloat.py_float "1234.56" = Ok float_1234_56 /\
  PyFloat.py_float "1e400" = Ok (S754_infinity false) /\
  PyFloat.py_float "1_000" = PyFloat.py_float "1000" /\
  PyFloat.py_float "12,5" = Raise (PyFloat.could_not_convert "12,5").
Proof. repeat split; vm_compute; reflexivity. Qed.

Example text_of_float :
  PyFloat.float_repr float_19 = "19.0" /\
  PyFloat.float_repr float_1234_56 = "1234.56" /\
  PyFloat.float_repr (S754_finite false 4768371582031250 21) = "1e+22" /\
  PyFloat.float_repr (S754_finite false 1 (-1074)) = "5e-324" /\
  reads_back float_1234_56 = true.
Proof. repeat split; vm_compute; reflexivity. Qed.

Example strptime_examples :
  PyDate.strptime "1/2/2024" PyDate.DMY_slash = Ok (PyDate.Date 2024 2 1) /\
  PyDate.strptime "2024-12- 5" PyDate.YMD_dash = Ok (PyDate.Date 2024 12 5) /\
  PyDate.strptime "29/02/2023" PyDate.DMY_slash
  = Raise (ValueError "day is out of range for month") /\
  PyDate.strptime "2024-12-311" PyDate.YMD_dash
  = Raise (ValueError "unconverted data remains").
Proof. repeat split; vm_compute; reflexivity. Qed.

(** The end-to-end scenario: the document is persisted once, with the date
    and the total in canonical form; submitting it again is answered as a
    duplicate and stores nothing. *)
Example end_to_end :
  let doc := Document "application/pdf" "a.pdf" in
  let w1 := snd (handle_pdf scenario_env doc (World ∅ [] ∅ [])) in
  let w2 := snd (handle_pdf scenario_env doc w1) in
  invoices w1 = [scenario_row] /\
  last (trace w1) = Some (EvRemove "./a.pdf") /\
  invoices w2 = [scenario_row] /\
  skipn 10 (trace w2) = [EvReplyText already_exists; EvRemove "./a.pdf"].
Proof.
  intros doc w1 w2. repeat split; vm_compute; reflexivity.
Qed.

(** * Further properties of the code *)

(** ** The normaliser: what its result looks like *)

(** The record behind the reference after the call, whether or not the
    reference is live. *)
Lemma cleaned_record data w :
  deref (snd (clean_invoice_data data w)) data = clean_dict (deref w data).
Proof.
  destruct (objects w !! data) as [d |] eqn:Hl.
  - rewrite (clean_invoice_data_spec _ _ _ Hl). simpl.
    by rewrite deref_put, (deref_some _ _ _ Hl).
  - rewrite (clean_invoice_data_dangling _ _ Hl). simpl.
    unfold deref. rewrite Hl. simpl. unfold clean_dict. by rewrite map_imap_empty.
Qed.

Lemma cleaned_lookup data w key :
  deref (snd (clean_invoice_data data w)) data !! key
  = clean_value key <$> deref w data !! key.
Proof. by rewrite cleaned_record, clean_dict_lookup. Qed.

Lemma clean_value_amount_shape key v :
  is_amount_key key = true ->
  clean_value key v = VNone \/ exists f, clean_value key v = VFloat f.
Proof.
  intros Hamt. unfold clean_value. rewrite Hamt.
  destruct v; simpl; try (destruct (amount_float _); simpl; eauto); eauto.
Qed.

Lemma clean_value_text key v s :
  clean_value key v = VStr s ->
  is_amount_key key = false /\
  exists s0, v = VStr s0 /\
    ((PyStr.nonempty s0 && is_date_key key = true /\
      exists dt, parse_date s0 = Ok dt /\ s = PyDate.strftime dt) \/
     (s = s0 /\ PyStr.eqb (PyStr.strip s0) "" = false)).
Proof.
  intros Hv.
  destruct (is_amount_key key) eqn:Hamt.
  { destruct (clean_value_amount_shape key v Hamt) as [H | [f H]]; congruence. }
  split; [done |].
  unfold clean_value in Hv. rewrite Hamt in Hv. simpl in Hv.
  destruct v as [| b | n | f | s0 | xs | m]; try discriminate.
  exists s0. split; [done |].
  destruct (PyStr.eqb key "vat_percent" && PyStr.nonempty s0).
  { destruct (percent_float s0); discriminate. }
  destruct (PyStr.nonempty s0 && is_date_key key) eqn:Hdate.
  - left. split; [done |].
    destruct (parse_date s0) as [dt |]; [| discriminate].
    exists dt. split; [done |]. simpl in Hv. congruence.
  - right. destruct (PyStr.eqb (PyStr.strip s0) ""); [discriminate |].
    split; [congruence | done].
Qed.

(** X1. The normaliser keeps the set of fields: it neither adds nor drops
    a key of the record it is given. *)
Theorem normalizer_keeps_field_set (data : loc) (w : world) :
  dom (deref (snd (clean_invoice_data data w)) data) = dom (deref w data).
Proof.
  apply set_eq. intros key. rewrite !elem_of_dom, cleaned_lookup.
  by rewrite fmap_is_Some.
Qed.

(** X2. After normalisation no field holds an empty or all-whitespace
    text: a text that is still there has a character that is not white
    space. *)
Theorem normalizer_leaves_no_blank_text (data : loc) (w : world) (key s : string) :
  deref (snd (clean_invoice_data data w)) data !! key = Some (VStr s) ->
  PyStr.strip s <> "" /\ s <> "".
Proof.
  rewrite cleaned_lookup. intros Hs.
  destruct (deref w data !! key) as [v |]; [| discriminate].
  injection Hs as Hs.
  assert (Hstrip : PyStr.strip s <> "").
  { destruct (clean_value_text key v s Hs) as (_ & s0 & _ & [(_ & dt & _ & ->) | [-> Hb]]).
    - by rewrite strip_strftime.
    - by apply String.eqb_neq. }
  split; [done |]. by intros ->.
Qed.

Lemma normalizer_leaves_no_blank_text_witness :
  let d : dict := <["seller_name" := VStr "  "]> {[ "description" := VStr " rent " ]} in
  PyStr.strip " rent " <> "" /\ " rent " <> "".
Proof.
  intros d.
  apply (normalizer_leaves_no_blank_text 0%nat (world_of d) "description" " rent ").
  reflexivity.
Defined.

(** X3. After normalisation a field whose name starts with [amount_] holds
    a float or [None], whatever it held before (text, number, boolean,
    list). *)
Theorem amount_fields_hold_floats (data : loc) (w : world) (key : string) (v : value) :
  is_amount_key key = true ->
  deref (snd (clean_invoice_data data w)) data !! key = Some v ->
  v = VNone \/ exists f, v = VFloat f.
Proof.
  intros Hamt. rewrite cleaned_lookup.
  destruct (deref w data !! key) as [v0 |]; [| discriminate].
  intros [= <-]. by apply clean_value_amount_shape.
Qed.

Lemma amount_fields_hold_floats_witness :
  let d : dict := <["amount_net" := VBool true]> {[ "amount_vat" := VInt 21 ]} in
  VFloat (S754_finite false 5910974510923776 (-48)) = VNone \/
  exists f, VFloat (S754_finite false 5910974510923776 (-48)) = VFloat f.
Proof.
  intros d.
  apply (amount_fields_hold_floats 0%nat (world_of d) "amount_vat").
  - reflexivity.
  - vm_compute. reflexivity.
Defined.

(** X4. After normalisation [vat_percent] never holds a text: a text that
    was there has become a float or [None]. *)
Theorem vat_percent_never_text (data : loc) (w : world) (s : string) :
  deref (snd (clean_invoice_data data w)) data !! "vat_percent" <> Some (VStr s).
Proof.
  rewrite cleaned_lookup.
  destruct (deref w data !! "vat_percent") as [v |]; [| discriminate].
  simpl. intros [= Hv].
  destruct (clean_value_text _ _ _ Hv) as (_ & s0 & -> & _).
  rewrite clean_value_percent in Hv. by destruct (percent_float s0).
Qed.

(** X5. Pass-through.  A value that is not a text is kept in every field
    but the amounts (so a number or a list in a date field or in
    [vat_percent] stays), and in a field that is no date, percentage or
    amount a text that is not blank is kept verbatim, white space around it
    included. *)
Theorem other_values_pass_through (data : loc) (w : world) (key : string) (v : value) :
  deref w data !! key = Some v ->
  let after := deref (snd (clean_invoice_data data w)) data in
  (is_amount_key key = false -> is_text v = false -> after !! key = Some v) /\
  (is_plain_key key = true ->
   forall s, v = VStr s -> PyStr.strip s <> "" -> after !! key = Some (VStr s)).
Proof.
  intros Hv after. subst after. rewrite cleaned_lookup, Hv. simpl. split.
  - intros Hamt Htext. f_equal. unfold clean_value. rewrite Hamt. simpl.
    by destruct v.
  - intros Hplain s -> Hs%String.eqb_neq. f_equal.
    unfold is_plain_key in Hplain.
    apply andb_true_iff in Hplain as [[Hd%negb_true_iff Hp%negb_true_iff]%andb_true_iff
                                        Ha%negb_true_iff].
    rewrite clean_value_plain by done. unfold PyStr.eqb. by rewrite Hs.
Qed.

Lemma other_values_pass_through_witness :
  let d : dict := <["invoice_number" := VStr " ES-1 "]> {[ "date_issued" := VInt 20241231 ]} in
  let after := deref (snd (clean_invoice_data 0%nat (world_of d))) 0%nat in
  after !! "invoice_number" = Some (VStr " ES-1 ").
Proof.
  intros d after.
  refine (proj2 (other_values_pass_through 0%nat (world_of d) "invoice_number"
                   (VStr " ES-1 ") _) _ " ES-1 " _ _).
  - reflexivity.
  - reflexivity.
  - reflexivity.
  - vm_compute. discriminate.
Defined.

(** ** Dates in both notations *)

Lemma slash_date_char_not_space c :
  slash_date_char c = true -> negb (PyStr.isspace c) = true.
Proof. unfold slash_date_char. by_cases_on_char c. Qed.

Lemma dmy_text_chars dt : all_chars slash_date_char (dmy_text dt) = true.
Proof.
  unfold dmy_text, PyDate.pad4, PyDate.pad2, slash_date_char. simpl.
  by rewrite !digit_char_isdigit.
Qed.

Lemma strip_dmy_text dt : PyStr.strip (dmy_text dt) = dmy_text dt.
Proof.
  apply strip_no_space, (all_chars_impl slash_date_char);
    [apply slash_date_char_not_space | apply dmy_text_chars].
Qed.

Lemma dmy_text_has_slash dt : PyStr.contains "/" (dmy_text dt) = true.
Proof.
  unfold dmy_text, PyDate.pad2.
  rewrite !contains_char_cons. rewrite Ascii.eqb_refl. by rewrite !orb_true_r.
Qed.

Lemma strftime_no_slash dt : PyStr.contains "/" (PyDate.strftime dt) = false.
Proof.
  apply contains_char_false, (all_chars_impl date_char);
    [apply date_char_not_slash | apply strftime_chars].
Qed.

(** Both notations are matched by their pattern, digits as written, before
    the calendar is asked. *)
Lemma strptime_iso_text y m d :
  0 <= y <= 9999 -> 1 <= m <= 12 -> 1 <= d <= 31 ->
  PyDate.strptime (PyDate.strftime (PyDate.Date y m d)) PyDate.YMD_dash
  = PyDate.make_date y m d.
Proof.
  intros Hy Hm Hd.
  unfold PyDate.strptime, PyDate.strftime, PyDate.pattern. simpl PyDate.year.
  simpl PyDate.month. simpl PyDate.day.
  destruct (directive_m_pad2 m (String "-" (PyDate.pad2 d EmptyString)) Hm) as [mm Hmm].
  destruct (directive_d_pad2 d EmptyString Hd) as [dd Hdd].
  rewrite (seq_cons _ _ _ _ _ _ (directive_Y_pad4 y _ Hy)).
  rewrite (seq_cons (PyDate.lit "-") _ (String "-" _) tt _ [] eq_refl).
  rewrite (seq_cons _ _ _ _ _ _ Hmm).
  rewrite (seq_cons (PyDate.lit "-") _ (String "-" _) tt _ [] eq_refl).
  rewrite (seq_cons _ _ _ _ _ _ Hdd).
  unfold PyDate.yield at 1. reflexivity.
Qed.

Lemma strptime_dmy_text y m d :
  0 <= y <= 9999 -> 1 <= m <= 12 -> 1 <= d <= 31 ->
  PyDate.strptime (dmy_text (PyDate.Date y m d)) PyDate.DMY_slash
  = PyDate.make_date y m d.
Proof.
  intros Hy Hm Hd.
  unfold PyDate.strptime, dmy_text, PyDate.pattern. simpl PyDate.year.
  simpl PyDate.month. simpl PyDate.day.
  destruct (directive_d_pad2 d
              (String "/" (PyDate.pad2 m (String "/" (PyDate.pad4 y EmptyString)))) Hd)
    as [dd Hdd].
  destruct (directive_m_pad2 m (String "/" (PyDate.pad4 y EmptyString)) Hm) as [mm Hmm].
  rewrite (seq_cons _ _ _ _ _ _ Hdd).
  rewrite (seq_cons (PyDate.lit "/") _ (String "/" _) tt _ [] eq_refl).
  rewrite (seq_cons _ _ _ _ _ _ Hmm).
  rewrite (seq_cons (PyDate.lit "/") _ (String "/" _) tt _ [] eq_refl).
  rewrite (seq_cons _ _ _ _ _ _ (directive_Y_pad4 y _ Hy)).
  unfold PyDate.yield at 1. reflexivity.
Qed.

Lemma clean_value_date_field key s :
  In key field_names -> is_date_key key = true ->
  clean_value key (VStr s) =
  or_none (PyDate.strptime (PyStr.strip s)
             (if PyStr.contains "/" s then PyDate.DMY_slash else PyDate.YMD_dash))
          (fun dt => VStr (PyDate.strftime dt)).
Proof.
  intros Hin Hdate. apply clean_value_date; [done | |];
    destruct (date_fields key Hin Hdate) as [-> | [-> | ->]]; reflexivity.
Qed.



(** X7. A well-formed date text that names no day of the calendar (the
    30th of February, the 31st of a short month, the 29th of February in a
    common year, the year 0000) leaves [None] in a date field, in either
    notation, and nothing is raised. *)
Theorem impossible_dates_become_null (data : loc) (w : world) (key : string) (y m d : Z) :
  0 <= y <= 9999 -> 1 <= m <= 12 -> 1 <= d <= 31 ->
  PyDate.valid_date y m d = false ->
  In key field_names -> is_date_key key = true ->
  deref w data !! key = Some (VStr (dmy_text (PyDate.Date y m d))) \/
  deref w data !! key = Some (VStr (PyDate.strftime (PyDate.Date y m d))) ->
  fst (clean_invoice_data data w) = Ok data /\
  deref (snd (clean_invoice_data data w)) data !! key = Some VNone.
Proof.
  intros Hy Hm Hd Hv Hin Hdate Hk. split.
  { destruct (objects w !! data) as [d0 |] eqn:Hl.
    - by rewrite (clean_invoice_data_spec _ _ _ Hl).
    - by rewrite (clean_invoice_data_dangling _ _ Hl). }
  destruct Hk as [Hk | Hk]; rewrite cleaned_lookup, Hk; simpl; f_equal;
    rewrite (clean_value_date_field key _ Hin Hdate).
  - rewrite dmy_text_has_slash, strip_dmy_text, strptime_dmy_text by lia.
    unfold PyDate.make_date. by rewrite Hv.
  - rewrite strftime_no_slash, strip_strftime, strptime_iso_text by lia.
    unfold PyDate.make_date. by rewrite Hv.
Qed.

Lemma impossible_dates_become_null_witness :
  let d : dict := {[ "date_issued" := VStr "29/02/2023" ]} in
  deref (snd (clean_invoice_data 0%nat (world_of d))) 0%nat !! "date_issued" = Some VNone.
Proof.
  intros d.
  refine (proj2 (impossible_dates_become_null 0%nat (world_of d) "date_issued" 2023 2 29
                   _ _ _ _ _ _ _)).
  - lia.
  - lia.
  - lia.
  - reflexivity.
  - simpl. tauto.
  - reflexivity.
  - left. reflexivity.
Defined.

(** ** The menu handler *)

Lemma handle_menu_button w :
  handle_menu menu_caption w =
  (Ok tt,
   logged [EvReplyText ask_number; EvUserData "awaiting_invoice_number" (VBool true)]
     (with_user_data "awaiting_invoice_number" (VBool true) w)).
Proof.
  unfold handle_menu. rewrite String.eqb_refl. unfold set_user_data. run.
  rewrite emit_run. unfold logged, with_user_data. simpl. by rewrite <- app_assoc.
Qed.

Lemma flag_up_is_truthy (ud : dict) :
  truthy (dict_get (<["awaiting_invoice_number" := VBool true]> ud)
            "awaiting_invoice_number") = true.
Proof. unfold dict_get. by rewrite lookup_insert_eq. Qed.

(** X8. [handle_menu] only reads the store: whatever the text and the
    state of the flag, it returns without raising and leaves the table and
    the records in memory as they were. *)
Theorem handle_menu_reads_only (text : string) (w : world) :
  fst (handle_menu text w) = Ok tt /\
  invoices (snd (handle_menu text w)) = invoices w /\
  objects (snd (handle_menu text w)) = objects w.
Proof.
  destruct (String.eqb_spec text menu_caption) as [-> | Hne].
  - by rewrite handle_menu_button.
  - destruct (truthy (dict_get (user_data w) "awaiting_invoice_number")) eqn:Hflag.
    + by rewrite (handle_menu_awaiting text w Hne Hflag).
    + by rewrite (handle_menu_idle text w Hne Hflag).
Qed.

(** X9. The button arms exactly one lookup: after the caption, whatever the
    flag was, the next text is stripped and looked up once, and the flag is
    down again afterwards. *)
Theorem button_arms_one_lookup (text : string) (w : world) :
  text <> menu_caption ->
  let w1 := snd (handle_menu menu_caption w) in
  let w2 := snd (handle_menu text w1) in
  trace w2 = (trace w ++ [EvReplyText ask_number;
                          EvUserData "awaiting_invoice_number" (VBool true);
                          EvUserData "awaiting_invoice_number" (VBool false);
                          EvSelect (PyStr.strip text);
                          lookup_reply (PyStr.strip text) (invoices w)])%list /\
  user_data w2 !! "awaiting_invoice_number" = Some (VBool false).
Proof.
  intros Hne w1 w2. subst w1 w2.
  rewrite handle_menu_button. simpl snd.
  rewrite handle_menu_awaiting; [| done | apply flag_up_is_truthy].
  simpl. split; [by rewrite <- app_assoc | apply lookup_insert_eq].
Qed.

Lemma button_arms_one_lookup_witness :
  let w := World ∅ [] ∅ [] in
  user_data (snd (handle_menu "ES-7" (snd (handle_menu menu_caption w))))
    !! "awaiting_invoice_number" = Some (VBool false).
Proof.
  intros w. refine (proj2 (button_arms_one_lookup "ES-7" w _)). discriminate.
Defined.

(** X10. White space around the typed invoice number does not matter: two
    texts that are equal once stripped are handled in the same way. *)
Theorem lookup_ignores_surrounding_space (text1 text2 : string) (w : world) :
  text1 <> menu_caption -> text2 <> menu_caption ->
  PyStr.strip text1 = PyStr.strip text2 ->
  handle_menu text1 w = handle_menu text2 w.
Proof.
  intros H1 H2 Hstrip.
  destruct (truthy (dict_get (user_data w) "awaiting_invoice_number")) eqn:Hflag.
  - rewrite (handle_menu_awaiting text1 w H1 Hflag), (handle_menu_awaiting text2 w H2 Hflag).
    by rewrite Hstrip.
  - by rewrite (handle_menu_idle text1 w H1 Hflag), (handle_menu_idle text2 w H2 Hflag).
Qed.

Lemma lookup_ignores_surrounding_space_witness :
  let row : dict := {[ "invoice_number" := VStr "ES-1" ]} in
  handle_menu "  ES-1" (waiting_world [row]) = handle_menu "ES-1 " (waiting_world [row]).
Proof.
  intros row. apply lookup_ignores_surrounding_space.
  - discriminate.
  - discriminate.
  - reflexivity.
Defined.

Lemma lstrip_starts_clean s : starts_clean (PyStr.lstrip s) = true.
Proof.
  induction s as [| c s IH]; [done |]. simpl.
  destruct (PyStr.isspace c) eqn:Hc; [done |]. simpl. by rewrite Hc.
Qed.

Lemma starts_clean_lstrip s : starts_clean s = true -> PyStr.lstrip s = s.
Proof.
  destruct s as [| c s]; [done |]. simpl. intros Hc%negb_true_iff. by rewrite Hc.
Qed.

Lemma rstrip_starts_clean s : starts_clean s = true -> starts_clean (PyStr.rstrip s) = true.
Proof.
  destruct s as [| c s]; [done |]. simpl. intros Hc%negb_true_iff.
  destruct (PyStr.rstrip s); rewrite ?Hc; simpl; by rewrite Hc.
Qed.

Lemma rstrip_idempotent s : PyStr.rstrip (PyStr.rstrip s) = PyStr.rstrip s.
Proof.
  induction s as [| c s IH]; [done |]. simpl.
  destruct (PyStr.rstrip s) as [| a r] eqn:Hr.
  - destruct (PyStr.isspace c) eqn:Hc; [done |]. simpl. by rewrite Hc.
  - change (PyStr.rstrip (String c (String a r))) with
      (match PyStr.rstrip (String a r) with
       | EmptyString => if PyStr.isspace c then EmptyString else String c EmptyString
       | x => String c x
       end).
    by rewrite IH.
Qed.

(** [strip] has nothing left to strip from its own result. *)
Lemma strip_idempotent s : PyStr.strip (PyStr.strip s) = PyStr.strip s.
Proof.
  unfold PyStr.strip.
  rewrite (starts_clean_lstrip (PyStr.rstrip (PyStr.lstrip s))).
  - apply rstrip_idempotent.
  - apply rstrip_starts_clean, lstrip_starts_clean.
Qed.

(** X11. An invoice number stored with white space around it cannot be
    retrieved.  The normaliser keeps such a number as it is, the lookup
    strips the typed text before it compares: when every row of the table
    carries a number with white space at an end, any lookup answers that
    there is no such invoice. *)
Theorem padded_invoice_number_is_never_found (text : string) (w : world) :
  text <> menu_caption ->
  truthy (dict_get (user_data w) "awaiting_invoice_number") = true ->
  Forall (fun row => exists s, row !! "invoice_number" = Some (VStr s) /\ PyStr.strip s <> s)
         (invoices w) ->
  (forall s, PyStr.strip s <> "" -> clean_value "invoice_number" (VStr s) = VStr s) /\
  trace (snd (handle_menu text w))
  = (trace w ++ [EvUserData "awaiting_invoice_number" (VBool false);
                 EvSelect (PyStr.strip text); EvReplyText not_found])%list.
Proof.
  intros Hne Hflag Hrows. split.
  { intros s Hs%String.eqb_neq. rewrite clean_value_plain by done.
    unfold PyStr.eqb. by rewrite Hs. }
  rewrite (handle_menu_awaiting text w Hne Hflag). simpl.
  unfold lookup_reply.
  pose proof (find_first (has_invoice_number (PyStr.strip text)) (invoices w)) as Hfind.
  destruct (List.find _ (invoices w)) as [row |]; [| done].
  destruct Hfind as (before & after & Hsplit & _ & Hrow).
  exfalso. rewrite Hsplit in Hrows.
  apply Forall_app in Hrows as [_ Hrows]. apply Forall_cons in Hrows as [(s & Hs & Hpad) _].
  unfold has_invoice_number in Hrow. rewrite Hs in Hrow.
  apply String.eqb_eq in Hrow as ->. apply Hpad, strip_idempotent.
Qed.

Lemma padded_invoice_number_is_never_found_witness :
  let row : dict := {[ "invoice_number" := VStr " ES-1" ]} in
  trace (snd (handle_menu " ES-1" (waiting_world [row])))
  = [EvUserData "awaiting_invoice_number" (VBool false); EvSelect "ES-1";
     EvReplyText not_found].
Proof.
  intros row.
  refine (proj2 (padded_invoice_number_is_never_found " ES-1" (waiting_world [row]) _ _ _)).
  - discriminate.
  - reflexivity.
  - constructor; [| constructor]. exists " ES-1". split; [reflexivity |].
    vm_compute. discriminate.
Defined.

(** ** The document handler, branch by branch *)

Lemma extract_run E text w :
  extract_invoice_data_with_llm E text w
  = (extraction E text, logged [EvCompletion (prompt text)] w).
Proof.
  unfold extract_invoice_data_with_llm, extraction. run. rewrite emit_run.
  unfold mbind, result_bind. by destruct (chat_completion E (prompt text)).
Qed.

Lemma upload_run E path name w :
  upload_pdf_to_supabase E path name w =
  (match storage_upload E (unique_name E name) with
   | Ok _ => Ok (public_url E name, name)
   | Raise e => Raise e
   end, logged [EvUpload (unique_name E name)] w).
Proof.
  unfold upload_pdf_to_supabase, public_url. fold (unique_name E name). run.
  rewrite emit_run. by destruct (storage_upload E (unique_name E name)) as [[] |].
Qed.

Lemma handle_pdf_other_type E doc w :
  mime_type doc <> "application/pdf" ->
  handle_pdf E doc w = (Ok tt, logged [EvReplyText not_a_pdf] w).
Proof.
  intros Hne%String.eqb_neq. unfold handle_pdf. by rewrite Hne.
Qed.

Lemma handle_pdf_unreadable E doc w e :
  mime_type doc = "application/pdf" ->
  pdf_to_text E ("./" ++ file_name doc) = Raise e ->
  handle_pdf E doc w = (Raise e, logged [EvDownload ("./" ++ file_name doc)] w).
Proof.
  intros Hmime He. unfold handle_pdf. rewrite Hmime, String.eqb_refl. cbn [negb].
  run. rewrite emit_run. by rewrite He.
Qed.

Lemma handle_pdf_not_extracted E doc w text e :
  mime_type doc = "application/pdf" ->
  pdf_to_text E ("./" ++ file_name doc) = Ok text ->
  extraction E text = Raise e ->
  handle_pdf E doc w =
  (Ok tt, logged (read_events doc text ++
                  [EvReplyError llm_failed e; EvRemove ("./" ++ file_name doc)]) w).
Proof.
  intros Hmime Htext He. unfold handle_pdf. rewrite Hmime, String.eqb_refl. cbn [negb].
  run. rewrite emit_run, Htext. cbv beta iota.
  rewrite extract_run, He. cbv beta iota. rewrite !emit_run, !logged_logged.
  reflexivity.
Qed.

Lemma handle_pdf_extracted E doc w text v :
  mime_type doc = "application/pdf" ->
  pdf_to_text E ("./" ++ file_name doc) = Ok text ->
  extraction E text = Ok v ->
  handle_pdf E doc w =
  (invoice_data ← hold v;
   '(file_url, original_file_name) ← upload_pdf_to_supabase E ("./" ++ file_name doc)
                                        (file_name doc);
   persist E invoice_data ("./" ++ file_name doc) file_url original_file_name)
    (logged (read_events doc text) w).
Proof.
  intros Hmime Htext Hv. unfold handle_pdf. rewrite Hmime, String.eqb_refl. cbn [negb].
  run. rewrite emit_run, Htext. cbv beta iota.
  rewrite extract_run, Hv. cbv beta iota. by rewrite logged_logged.
Qed.

Lemma hold_run v w :
  hold v w =
  match v with
  | VDict d => (Ok (Ref (fresh (dom (objects w)))), put (fresh (dom (objects w))) d w)
  | _ => (Ok (Imm v), w)
  end.
Proof. by destruct v. Qed.

(** The outcome of the run once a value has been extracted. *)
Lemma handle_pdf_after_extraction E doc w text v :
  mime_type doc = "application/pdf" ->
  pdf_to_text E ("./" ++ file_name doc) = Ok text ->
  extraction E text = Ok v ->
  let path := "./" ++ file_name doc in
  let w0 := logged (read_events doc text) w in
  let held := snd (hold v w0) in
  let w1 := logged [EvUpload (unique_name E (file_name doc))] held in
  handle_pdf E doc w =
  match storage_upload E (unique_name E (file_name doc)) with
  | Raise e => (Raise e, w1)
  | Ok _ =>
      match fst (hold v w0) with
      | Ok o => persist E o path (public_url E (file_name doc)) (file_name doc) w1
      | Raise e => (Raise e, w1)
      end
  end.
Proof.
  intros Hmime Htext Hv path w0 held w1. subst path w0 held w1.
  rewrite (handle_pdf_extracted E doc w text v Hmime Htext Hv).
  run. rewrite hold_run.
  destruct v; cbv beta iota; rewrite upload_run;
    destruct (storage_upload E _) as [[] |]; reflexivity.
Qed.

(** X12. When the model cannot be reached or its answer cannot be parsed,
    [handle_pdf] reports the error to the user, removes the staged file and
    returns normally; nothing is uploaded and nothing is offered to the
    store. *)
Theorem extraction_failure_ends_the_run
  (E : env) (doc : document) (w : world) (text : string) (e : exn) :
  mime_type doc = "application/pdf" ->
  pdf_to_text E ("./" ++ file_name doc) = Ok text ->
  (chat_completion E (prompt text) = Raise e \/
   exists content, chat_completion E (prompt text) = Ok content /\
                   parse_response content = Raise e) ->
  let w' := snd (handle_pdf E doc w) in
  fst (handle_pdf E doc w) = Ok tt /\
  invoices w' = invoices w /\ objects w' = objects w /\
  trace w' = (trace w ++ [EvDownload ("./" ++ file_name doc); EvCompletion (prompt text);
                          EvReplyError llm_failed e;
                          EvRemove ("./" ++ file_name doc)])%list.
Proof.
  intros Hmime Htext Hfail w'. subst w'.
  rewrite (handle_pdf_not_extracted E doc w text e Hmime Htext); [done |].
  unfold extraction. destruct Hfail as [-> | (content & -> & Hparse)]; [done |].
  exact Hparse.
Qed.

Lemma extraction_failure_ends_the_run_witness :
  let E := Env (fun _ => Ok [Ok (Some "scan")]) (fun _ => Ok "sorry, no data")
               (fun _ => Ok tt) "u" None "s" "b" in
  fst (handle_pdf E (Document "application/pdf" "a.pdf") (world_of ∅)) = Ok tt.
Proof.
  intros E.
  refine (proj1 (extraction_failure_ends_the_run E (Document "application/pdf" "a.pdf")
                   (world_of ∅) "scan" (ValueError "LLM did not return valid JSON") _ _ _)).
  - reflexivity.
  - reflexivity.
  - right. exists "sorry, no data". split; reflexivity.
Defined.

(** X13. A failure of the storage upload is not caught: it leaves
    [handle_pdf] as it is, after the model has been asked; nothing is offered
    to the store, nothing is replied and the staged file is not removed. *)
Theorem upload_failure_leaves_the_handler
  (E : env) (doc : document) (w : world) (text : string) (v : value) (e : exn) :
  mime_type doc = "application/pdf" ->
  pdf_to_text E ("./" ++ file_name doc) = Ok text ->
  extraction E text = Ok v ->
  storage_upload E (unique_name E (file_name doc)) = Raise e ->
  let w' := snd (handle_pdf E doc w) in
  fst (handle_pdf E doc w) = Raise e /\
  invoices w' = invoices w /\
  trace w' = (trace w ++ [EvDownload ("./" ++ file_name doc); EvCompletion (prompt text);
                          EvUpload (unique_name E (file_name doc))])%list.
Proof.
  intros Hmime Htext Hv Hup w'. subst w'.
  rewrite (handle_pdf_after_extraction E doc w text v Hmime Htext Hv). cbv zeta.
  rewrite Hup, hold_run. destruct v; simpl; by rewrite <- app_assoc.
Qed.

Lemma upload_failure_leaves_the_handler_witness :
  let down := Exn "StorageException" ["bucket not found"] in
  let E := Env (fun _ => Ok [Ok (Some "scan")]) (fun _ => Ok "{}")
               (fun _ => Raise down) "u" None "s" "b" in
  fst (handle_pdf E (Document "application/pdf" "a.pdf") (world_of ∅)) = Raise down.
Proof.
  intros down E.
  refine (proj1 (upload_failure_leaves_the_handler E (Document "application/pdf" "a.pdf")
                   (world_of ∅) "scan" (VDict ∅) down _ _ _ _)); reflexivity.
Defined.

Lemma handle_pdf_non_object E doc w text v :
  mime_type doc = "application/pdf" ->
  pdf_to_text E ("./" ++ file_name doc) = Ok text ->
  extraction E text = Ok v -> is_dict v = false ->
  storage_upload E (unique_name E (file_name doc)) = Ok tt ->
  exists msg,
    handle_pdf E doc w =
    (Raise (TypeError msg),
     logged (read_events doc text ++ [EvUpload (unique_name E (file_name doc))]) w).
Proof.
  intros Hmime Htext Hv Hdict Hup.
  rewrite (handle_pdf_after_extraction E doc w text v Hmime Htext Hv). cbv zeta.
  rewrite Hup, hold_run.
  destruct v; try discriminate; simpl; rewrite logged_logged; by eexists.
Qed.

(** X14. When the answer of the model is valid JSON but not an object (a
    list, a number, a text, null), the file is uploaded all the same and the
    run then ends in a [TypeError] at the first assignment to the record:
    nothing is offered to the store, nothing is replied, the staged file
    stays. *)
Theorem non_object_answer_fails_after_upload
  (E : env) (doc : document) (w : world) (text : string) (v : value) :
  mime_type doc = "application/pdf" ->
  pdf_to_text E ("./" ++ file_name doc) = Ok text ->
  extraction E text = Ok v -> is_dict v = false ->
  storage_upload E (unique_name E (file_name doc)) = Ok tt ->
  exists msg,
    handle_pdf E doc w =
    (Raise (TypeError msg),
     logged [EvDownload ("./" ++ file_name doc); EvCompletion (prompt text);
             EvUpload (unique_name E (file_name doc))] w).
Proof.
  intros Hmime Htext Hv Hdict Hup.
  exact (handle_pdf_non_object E doc w text v Hmime Htext Hv Hdict Hup).
Qed.

Lemma non_object_answer_fails_after_upload_witness :
  let E := Env (fun _ => Ok [Ok (Some "scan")]) (fun _ => Ok "[1, 2]")
               (fun _ => Ok tt) "u" None "s" "b" in
  exists msg,
    handle_pdf E (Document "application/pdf" "a.pdf") (world_of ∅) =
    (Raise (TypeError msg),
     logged [EvDownload "./a.pdf"; EvCompletion (prompt "scan"); EvUpload "u_a.pdf"]
       (world_of ∅)).
Proof.
  intros E.
  apply (non_object_answer_fails_after_upload E (Document "application/pdf" "a.pdf")
           (world_of ∅) "scan" (VList [VInt 1; VInt 2])); reflexivity.
Defined.

(** The run for an answer that is an object, from the upload on. *)
Lemma handle_pdf_object E doc w text d :
  mime_type doc = "application/pdf" ->
  pdf_to_text E ("./" ++ file_name doc) = Ok text ->
  extraction E text = Ok (VDict d) ->
  storage_upload E (unique_name E (file_name doc)) = Ok tt ->
  let path := "./" ++ file_name doc in
  let w0 := logged (read_events doc text) w in
  let data := fresh (dom (objects w0)) in
  let row := clean_dict (attach (public_url E (file_name doc)) (file_name doc) d) in
  let w1 := logged [EvInsert row]
              (put data row (logged [EvUpload (unique_name E (file_name doc))] w0)) in
  handle_pdf E doc w =
  (Ok tt,
   match insert_failure E with
   | Some e =>
       logged [if is_duplicate e then EvReplyText already_exists
               else EvReplyError write_failed e; EvRemove path] w1
   | None =>
       if existsb (same_invoice_number row) (invoices w)
       then logged [EvReplyText already_exists; EvRemove path] w1
       else logged [EvReplyRecord row; EvRemove path] (with_row row w1)
   end).
Proof.
  intros Hmime Htext Hv Hup path w0 data row w1.
  rewrite (handle_pdf_after_extraction E doc w text (VDict d) Hmime Htext Hv). cbv zeta.
  rewrite Hup, hold_run. cbn [fst snd].
  rewrite (persist_run E _ d) by apply objects_put. cbv zeta.
  subst w1 row data w0 path. simpl invoices.
  f_equal. unfold put, logged. simpl. rewrite insert_insert_eq. reflexivity.
Qed.

Lemma attached_url_kept E name original d :
  clean_dict (attach (public_url E name) original d) !! "file_url"
  = Some (VStr (public_url E name)).
Proof.
  unfold attach. rewrite clean_dict_lookup, lookup_insert_ne, lookup_insert_eq by done.
  simpl. f_equal. rewrite clean_value_plain by done.
  pose proof (upload_url_not_blank (SUPABASE_URL E) (STORAGE_BUCKET E) (unique_name E name))
    as Hurl%String.eqb_neq.
  unfold public_url, PyStr.eqb. by rewrite Hurl.
Qed.

(** X15. An accepted document.  When every collaborator answers, the model
    returns an object and the store has no row with its invoice number, one
    row is added to the table: the object of the model with the two storage
    fields put on it, normalised.  Its [file_url] is the public URL of the
    upload, whatever the model had written under that key; the same record
    is reported to the user, and the staged file is removed last. *)
Theorem accepted_document_is_stored
  (E : env) (doc : document) (w : world) (text : string) (d : dict) :
  mime_type doc = "application/pdf" ->
  pdf_to_text E ("./" ++ file_name doc) = Ok text ->
  extraction E text = Ok (VDict d) ->
  storage_upload E (unique_name E (file_name doc)) = Ok tt ->
  insert_failure E = None ->
  let row := clean_dict (attach (public_url E (file_name doc)) (file_name doc) d) in
  existsb (same_invoice_number row) (invoices w) = false ->
  let w' := snd (handle_pdf E doc w) in
  fst (handle_pdf E doc w) = Ok tt /\
  invoices w' = (invoices w ++ [row])%list /\
  row !! "file_url" = Some (VStr (public_url E (file_name doc))) /\
  trace w' = (trace w ++ [EvDownload ("./" ++ file_name doc); EvCompletion (prompt text);
                          EvUpload (unique_name E (file_name doc));
                          EvInsert row; EvReplyRecord row;
                          EvRemove ("./" ++ file_name doc)])%list.
Proof.
  intros Hmime Htext Hv Hup Hnone row Hfree w'. subst w'.
  rewrite (handle_pdf_object E doc w text d Hmime Htext Hv Hup). cbv zeta.
  fold row. rewrite Hnone, Hfree. simpl.
  repeat split; [apply attached_url_kept | by rewrite <- !app_assoc].
Qed.

Lemma accepted_document_is_stored_witness :
  let w1 := snd (handle_pdf scenario_env (Document "application/pdf" "a.pdf")
                   (World ∅ [] ∅ [])) in
  invoices w1
  = [clean_dict (attach (public_url scenario_env "a.pdf") "a.pdf"
                   (<["invoice_number" := VStr "ES-AEU-2025-407254"]>
                    (<["date_issued" := VStr "31/12/2024"]>
                     (<["amount_total" := VStr "1000,00 EUR"]> ∅))))].
Proof.
  intros w1.
  refine (proj1 (proj2 (accepted_document_is_stored scenario_env
                          (Document "application/pdf" "a.pdf") (World ∅ [] ∅ [])
                          "Invoice ES-AEU-2025-407254 dated 31/12/2024, total 1000,00 EUR"
                          _ _ _ _ _ _ _))).
  - reflexivity.
  - reflexivity.
  - vm_compute. reflexivity.
  - reflexivity.
  - reflexivity.
  - reflexivity.
Defined.

(** X16. No rollback.  When the insert fails, by the unique constraint or
    otherwise, the upload has already happened and nothing undoes it: after
    the insert the handler only replies and removes the staged file, the
    table is as before, and the handler returns normally. *)
Theorem failed_insert_keeps_the_upload
  (E : env) (doc : document) (w : world) (text : string) (d : dict) :
  mime_type doc = "application/pdf" ->
  pdf_to_text E ("./" ++ file_name doc) = Ok text ->
  extraction E text = Ok (VDict d) ->
  storage_upload E (unique_name E (file_name doc)) = Ok tt ->
  let row := clean_dict (attach (public_url E (file_name doc)) (file_name doc) d) in
  insert_failure E <> None \/ existsb (same_invoice_number row) (invoices w) = true ->
  let w' := snd (handle_pdf E doc w) in
  fst (handle_pdf E doc w) = Ok tt /\
  invoices w' = invoices w /\
  exists reply,
    trace w' = (trace w ++ [EvDownload ("./" ++ file_name doc); EvCompletion (prompt text);
                            EvUpload (unique_name E (file_name doc));
                            EvInsert row; reply;
                            EvRemove ("./" ++ file_name doc)])%list /\
    (reply = EvReplyText already_exists \/ exists e, reply = EvReplyError write_failed e).
Proof.
  intros Hmime Htext Hv Hup row Hfail w'. subst w'.
  rewrite (handle_pdf_object E doc w text d Hmime Htext Hv Hup). cbv zeta.
  fold row. destruct (insert_failure E) as [e |].
  - simpl. repeat split. eexists. split; [by rewrite <- !app_assoc |].
    destruct (is_duplicate e); eauto.
  - destruct Hfail as [Hfail | ->]; [done |].
    simpl. repeat split. eexists. split; [by rewrite <- !app_assoc | by left].
Qed.

Lemma failed_insert_keeps_the_upload_witness :
  let doc := Document "application/pdf" "a.pdf" in
  let w1 := snd (handle_pdf scenario_env doc (World ∅ [] ∅ [])) in
  invoices (snd (handle_pdf scenario_env doc w1)) = invoices w1.
Proof.
  intros doc w1.
  refine (proj1 (proj2 (failed_insert_keeps_the_upload scenario_env doc w1
                          "Invoice ES-AEU-2025-407254 dated 31/12/2024, total 1000,00 EUR"
                          (<["invoice_number" := VStr "ES-AEU-2025-407254"]>
                           (<["date_issued" := VStr "31/12/2024"]>
                            (<["amount_total" := VStr "1000,00 EUR"]> ∅)))
                          _ _ _ _ _))).
  - reflexivity.
  - reflexivity.
  - vm_compute. reflexivity.
  - reflexivity.
  - right. vm_compute. reflexivity.
Defined.

(** X17. The table only grows: whatever the document and whatever the
    collaborators do, a run of [handle_pdf] leaves the rows of the table as
    they were, or adds exactly one row at the end and returns normally. *)
Theorem handle_pdf_only_appends (E : env) (doc : document) (w : world) :
  invoices (snd (handle_pdf E doc w)) = invoices w \/
  exists row,
    invoices (snd (handle_pdf E doc w)) = (invoices w ++ [row])%list /\
    fst (handle_pdf E doc w) = Ok tt.
Proof.
  destruct (String.eqb_spec (mime_type doc) "application/pdf") as [Hmime | Hmime];
    [| left; by rewrite handle_pdf_other_type].
  destruct (pdf_to_text E ("./" ++ file_name doc)) as [text | e] eqn:Htext;
    [| left; by rewrite (handle_pdf_unreadable E doc w e)].
  destruct (extraction E text) as [v | e] eqn:Hv;
    [| left; by rewrite (handle_pdf_not_extracted E doc w text e)].
  destruct (storage_upload E (unique_name E (file_name doc))) as [[] | e] eqn:Hup.
  - destruct (is_dict v) eqn:Hdict.
    + destruct v; try discriminate.
      rewrite (handle_pdf_object E doc w text d Hmime Htext Hv Hup). cbv zeta.
      destruct (insert_failure E); [by left |].
      destruct (existsb _ (invoices w)); [by left |].
      right. by eexists.
    + left.
      destruct (handle_pdf_non_object E doc w text v Hmime Htext Hv Hdict Hup)
        as [msg ->]. reflexivity.
  - left. rewrite (handle_pdf_after_extraction E doc w text v Hmime Htext Hv). cbv zeta.
    rewrite Hup, hold_run. by destruct v.
Qed.

(** X18. The staged file is removed exactly in the runs that return
    normally: a run on a PDF that returns ends with the removal of the file,
    and a run that raises (text conversion, upload, an answer that is no
    object) has not removed it. *)
Theorem staged_file_removed_on_normal_return (E : env) (doc : document) (w : world) :
  mime_type doc = "application/pdf" ->
  let path := "./" ++ file_name doc in
  let w' := snd (handle_pdf E doc w) in
  exists events,
    trace w' = (trace w ++ events)%list /\
    (fst (handle_pdf E doc w) = Ok tt -> last events = Some (EvRemove path)) /\
    (forall e, fst (handle_pdf E doc w) = Raise e -> ~ In (EvRemove path) events).
Proof.
  intros Hmime path w'. subst w'.
  destruct (pdf_to_text E ("./" ++ file_name doc)) as [text | e] eqn:Htext.
  2:{ rewrite (handle_pdf_unreadable E doc w e Hmime Htext). simpl.
      eexists. split; [reflexivity |]. split; [discriminate |].
      intros _ _ [? | []]. discriminate. }
  destruct (extraction E text) as [v | e] eqn:Hv.
  2:{ rewrite (handle_pdf_not_extracted E doc w text e Hmime Htext Hv). simpl.
      eexists. split; [reflexivity |]. split; [reflexivity | discriminate]. }
  destruct (storage_upload E (unique_name E (file_name doc))) as [[] | e] eqn:Hup.
  - destruct (is_dict v) eqn:Hdict.
    + destruct v; try discriminate.
      rewrite (handle_pdf_object E doc w text d Hmime Htext Hv Hup). cbv zeta.
      destruct (insert_failure E); [| destruct (existsb _ (invoices w))]; simpl;
        rewrite <- !app_assoc; (eexists; split; [reflexivity |]);
        (split; [reflexivity | discriminate]).
    + destruct (handle_pdf_non_object E doc w text v Hmime Htext Hv Hdict Hup) as [msg ->].
      simpl. eexists. split; [reflexivity |]. split; [discriminate |].
      intros _ _ [? | [? | [? | []]]]; discriminate.
  - rewrite (handle_pdf_after_extraction E doc w text v Hmime Htext Hv). cbv zeta.
    rewrite Hup, hold_run.
    exists (read_events doc text ++ [EvUpload (unique_name E (file_name doc))])%list.
    destruct v; simpl; rewrite <- !app_assoc; (split; [reflexivity |]);
      (split; [discriminate |]); intros _ _ [? | [? | [? | []]]]; discriminate.
Qed.

Lemma staged_file_removed_on_normal_return_witness :
  let doc := Document "application/pdf" "a.pdf" in
  exists events,
    trace (snd (handle_pdf scenario_env doc (World ∅ [] ∅ []))) = ([] ++ events)%list /\
    (fst (handle_pdf scenario_env doc (World ∅ [] ∅ [])) = Ok tt ->
     last events = Some (EvRemove "./a.pdf")) /\
    (forall e, fst (handle_pdf scenario_env doc (World ∅ [] ∅ [])) = Raise e ->
               ~ In (EvRemove "./a.pdf") events).
Proof.
  intros doc.
  apply (staged_file_removed_on_normal_return scenario_env doc (World ∅ [] ∅ [])).
  reflexivity.
Defined.

(** ** The fallback of the response parser, and the pages of a PDF *)

Lemma no_char_through_last_close s :
  PyStr.contains "}" s = false -> through_last_close s = None.
Proof.
  induction s as [| a r IH]; [done |]. rewrite contains_char_cons.
  intros [Ha Hr]%orb_false_iff. simpl. by rewrite (IH Hr), Ha.
Qed.

Lemma through_last_close_app body post :
  PyStr.contains "}" post = false ->
  through_last_close (body ++ "}" ++ post) = Some (body ++ "}").
Proof.
  intros Hpost. induction body as [| a body IH].
  - change (through_last_close (String "}" post) = Some (String "}" EmptyString)).
    cbn [through_last_close].
    by rewrite (no_char_through_last_close post Hpost).
  - change (through_last_close (String a (body ++ "}" ++ post))
            = Some (String a (body ++ "}"))).
    cbn [through_last_close]. by rewrite IH.
Qed.

Lemma brace_search_app pre body post :
  PyStr.contains "{" pre = false -> PyStr.contains "}" post = false ->
  brace_search (pre ++ "{" ++ body ++ "}" ++ post) = Some ("{" ++ body ++ "}").
Proof.
  intros Hpre Hpost. induction pre as [| a pre IH].
  - change (brace_search (String "{" (body ++ "}" ++ post))
            = Some (String "{" (body ++ "}"))).
    cbn [brace_search]. rewrite Ascii.eqb_refl.
    by rewrite (through_last_close_app body post Hpost).
  - rewrite contains_char_cons in Hpre. apply orb_false_iff in Hpre as [Ha Hpre].
    change (brace_search (String a (pre ++ "{" ++ body ++ "}" ++ post))
            = Some ("{" ++ body ++ "}")).
    cbn [brace_search]. rewrite Ha. by apply IH.
Qed.

(** X19. An object wrapped in prose is recovered.  When the answer consists
    of some text without an opening brace, a braced text, and some text
    without a closing brace, and the whole is not JSON, the outcome is
    exactly the outcome of parsing the braced text alone. *)
Theorem wrapped_object_is_recovered (pre body post : string) (e : exn) :
  PyStr.contains "{" pre = false -> PyStr.contains "}" post = false ->
  Json.loads (pre ++ "{" ++ body ++ "}" ++ post) = Raise e ->
  parse_response (pre ++ "{" ++ body ++ "}" ++ post) = Json.loads ("{" ++ body ++ "}").
Proof.
  intros Hpre Hpost Hfail. unfold parse_response. rewrite Hfail. simpl try_except.
  by rewrite (brace_search_app pre body post Hpre Hpost).
Qed.

Lemma wrapped_object_is_recovered_witness :
  let q s := String Json.dq (s ++ String Json.dq EmptyString) in
  parse_response ("Result: " ++ "{" ++ (q "vat_percent" ++ ": 21") ++ "}" ++ " (done)")
  = Json.loads ("{" ++ (q "vat_percent" ++ ": 21") ++ "}").
Proof.
  intros q.
  apply (wrapped_object_is_recovered "Result: " (q "vat_percent" ++ ": 21") " (done)"
           (Json.JSONDecodeError "Expecting value")); reflexivity.
Defined.

Lemma page_texts_failing (before : list (option string)) e after :
  page_texts (map Ok before ++ Raise e :: after) = Raise e.
Proof.
  induction before as [| p before IH]; [done |]. simpl.
  unfold mbind, result_bind. by rewrite IH.
Qed.

(** X20. A page whose text cannot be extracted makes [pdf_to_text] raise
    the error of that page, the first such page deciding; the text of the
    pages before it is not returned. *)
Theorem unreadable_page_fails_the_conversion
  (E : env) (path : string) (before : list (option string)) (e : exn)
  (after : list (result (option string))) :
  pdf_pages E path = Ok (map Ok before ++ Raise e :: after)%list ->
  pdf_to_text E path = Raise e.
Proof.
  intros Hpages. unfold pdf_to_text. rewrite Hpages. simpl.
  unfold mbind, result_bind. by rewrite page_texts_failing.
Qed.

Lemma unreadable_page_fails_the_conversion_witness :
  let bad := Exn "PDFSyntaxError" ["page 2"] in
  let E := Env (fun _ => Ok [Ok (Some "one"); Raise bad; Raise (Exn "KeyError" ["x"])])
               (fun _ => Ok "{}") (fun _ => Ok tt) "u" None "s" "b" in
  pdf_to_text E "./a.pdf" = Raise bad.
Proof.
  intros bad E.
  apply (unreadable_page_fails_the_conversion E "./a.pdf" [Some "one"] bad
           [Raise (Exn "KeyError" ["x"])]).
  reflexivity.
Defined.
